(** * The Conductor of the cloud agent: lifecycle and message routing

    A shallow embedding of [aries_cloudagent/conductor.py].

    The Conductor is glue code: almost every statement is a call into a
    collaborator (context builder, dispatcher, transport managers, admin
    server, connection manager, stats collector).  None of the
    collaborators is part of this file, so their behaviour is a parameter
    of the development: an environment [env] that answers every call with
    a returned value or a raised exception and threads a state of its own.
    What the Conductor itself does (the order of the calls, the handling
    of exceptions, the writes to [self] and to the outbound message, the
    log records) is modelled statement by statement in a state and
    exception monad.  Every call is recorded in a trace, so that
    statements such as "the router never calls the resolution operation"
    are statements about the trace.

    [await] is modelled as a plain call: the coroutines of this file are
    followed from start to end, interleaving with other tasks of the event
    loop is outside the model.  An outbound message is an object in a
    store, passed by reference; the store records the writes of the
    Conductor, what a collaborator does to a message it was handed is not
    part of this file. *)

From Stdlib Require Import String Ascii List ZArith Lia Bool.
From stdpp Require Import base option gmap.
Import ListNotations.

Set Warnings "-register-all".

#[local] Open Scope string_scope.
#[local] Open Scope list_scope.

(** ** Python values *)

(** Python is dynamically typed: settings, results of collaborators and
    the optional fields of messages are values of one universe.
    Collaborator instances are opaque objects with an identity. *)
Inductive Value : Type :=
| VNone
| VBool (b : bool)
| VInt (z : Z)
| VStr (s : string)
| VBytes (s : string)
| VDigest (data : string)      (* hashlib.sha256(data).digest() *)
| VList (l : list Value)
| VTuple (l : list Value)
| VClass (name : string)       (* a class object, e.g. ConnectionManager *)
| VObj (id : nat)              (* an instance of a collaborator class *)
| VConductor.                  (* the Conductor instance, [self] *)

(** Truth value testing, as done by [if x], [not x] and [x and y].  The
    collaborator classes define neither [__bool__] nor [__len__], so their
    instances are true. *)
Definition truthy (v : Value) : bool :=
  match v with
  | VNone => false
  | VBool b => b
  | VInt z => negb (z =? 0)%Z
  | VStr s => negb (s =? "")
  | VBytes s => negb (s =? "")
  | VDigest _ => true
  | VList l => match l with [] => false | _ => true end
  | VTuple l => match l with [] => false | _ => true end
  | VClass _ => true
  | VObj _ => true
  | VConductor => true
  end.

Definition is_None (v : Value) : bool :=
  match v with
  | VNone => true
  | _ => false
  end.

Fixpoint chars (s : string) : list Value :=
  match s with
  | EmptyString => []
  | String c s' => VStr (String c EmptyString) :: chars s'
  end.

Fixpoint byte_values (s : string) : list Value :=
  match s with
  | EmptyString => []
  | String c s' => VInt (Z.of_nat (nat_of_ascii c)) :: byte_values s'
  end.

(** ** SHA-256 *)

(** [hashlib.sha256], as FIPS 180-4 defines it, on byte strings.  Words
    are integers below 2^32. *)
Definition word (z : Z) : Z := Z.land z 4294967295.

Definition rotr (n x : Z) : Z :=
  Z.lor (Z.shiftr x n) (word (Z.shiftl x (32 - n))).

Definition Ch (x y z : Z) : Z :=
  Z.lxor (Z.land x y) (Z.land (Z.lxor x 4294967295) z).

Definition Maj (x y z : Z) : Z :=
  Z.lxor (Z.lxor (Z.land x y) (Z.land x z)) (Z.land y z).

Definition Sigma0 (x : Z) : Z := Z.lxor (Z.lxor (rotr 2 x) (rotr 13 x)) (rotr 22 x).
Definition Sigma1 (x : Z) : Z := Z.lxor (Z.lxor (rotr 6 x) (rotr 11 x)) (rotr 25 x).
Definition sigma0 (x : Z) : Z := Z.lxor (Z.lxor (rotr 7 x) (rotr 18 x)) (Z.shiftr x 3).
Definition sigma1 (x : Z) : Z := Z.lxor (Z.lxor (rotr 17 x) (rotr 19 x)) (Z.shiftr x 10).

(** The round constants and the initial hash value. *)
Definition K256 : list Z :=
  [
     1116352408; 1899447441; 3049323471; 3921009573;
     961987163; 1508970993; 2453635748; 2870763221;
     3624381080; 310598401; 607225278; 1426881987;
     1925078388; 2162078206; 2614888103; 3248222580;
     3835390401; 4022224774; 264347078; 604807628;
     770255983; 1249150122; 1555081692; 1996064986;
     2554220882; 2821834349; 2952996808; 3210313671;
     3336571891; 3584528711; 113926993; 338241895;
     666307205; 773529912; 1294757372; 1396182291;
     1695183700; 1986661051; 2177026350; 2456956037;
     2730485921; 2820302411; 3259730800; 3345764771;
     3516065817; 3600352804; 4094571909; 275423344;
     430227734; 506948616; 659060556; 883997877;
     958139571; 1322822218; 1537002063; 1747873779;
     1955562222; 2024104815; 2227730452; 2361852424;
     2428436474; 2756734187; 3204031479; 3329325298
  ]%Z.

Definition H256 : list Z :=
  [
     1779033703; 3144134277; 1013904242; 2773480762;
     1359893119; 2600822924; 528734635; 1541459225
  ]%Z.

(** The big-endian bytes of [z], [n] of them. *)
Fixpoint big_endian (n : nat) (z : Z) : list Z :=
  match n with
  | O => []
  | S n' => Z.land (Z.shiftr z (8 * Z.of_nat n')) 255 :: big_endian n' z
  end.

(** The message followed by the bit 1, zeros and its length in bits, a
    multiple of 64 bytes long. *)
Definition sha256_pad (msg : list Z) : list Z :=
  let len := Z.of_nat (length msg) in
  msg ++ [128%Z] ++ repeat 0%Z (Z.to_nat ((55 - len) mod 64))
      ++ big_endian 8 (8 * len).

(** The first [n] big-endian words of a list of bytes. *)
Fixpoint sha256_words (n : nat) (bs : list Z) : list Z :=
  match n with
  | O => []
  | S n' =>
      match bs with
      | b0 :: b1 :: b2 :: b3 :: rest =>
          (((b0 * 256 + b1) * 256 + b2) * 256 + b3)%Z :: sha256_words n' rest
      | _ => []
      end
  end.

(** The message schedule, grown by [n] words. *)
Fixpoint sha256_schedule (n : nat) (w : list Z) : list Z :=
  match n with
  | O => w
  | S n' =>
      let t := length w in
      let back i := nth (t - i) w 0%Z in
      sha256_schedule n'
        (w ++ [word (sigma1 (back 2%nat) + back 7%nat
                     + sigma0 (back 15%nat) + back 16%nat)])
  end.

Definition sha256_round (s : list Z) (kw : Z * Z) : list Z :=
  match s with
  | [a; b; c; d; e; f; g; h] =>
      let t1 := word (h + Sigma1 e + Ch e f g + fst kw + snd kw) in
      let t2 := word (Sigma0 a + Maj a b c) in
      [word (t1 + t2); a; b; c; word (d + t1); e; f; g]
  | _ => s
  end.

Definition sha256_block (h : list Z) (block : list Z) : list Z :=
  let w := sha256_schedule 48 (sha256_words 16 block) in
  map (fun xy => word (fst xy + snd xy))
    (combine h (fold_left sha256_round (combine K256 w) h)).

Fixpoint sha256_blocks (fuel : nat) (h : list Z) (bs : list Z) : list Z :=
  match fuel with
  | O => h
  | S fuel' =>
      match bs with
      | [] => h
      | _ => sha256_blocks fuel' (sha256_block h (firstn 64 bs)) (skipn 64 bs)
      end
  end.

Fixpoint string_bytes (s : string) : list Z :=
  match s with
  | EmptyString => []
  | String c s' => Z.of_nat (nat_of_ascii c) :: string_bytes s'
  end.

Fixpoint bytes_string (bs : list Z) : string :=
  match bs with
  | [] => EmptyString
  | b :: bs' => String (ascii_of_nat (Z.to_nat b)) (bytes_string bs')
  end.

(** [hashlib.sha256(data).digest()] *)
Definition sha256 (data : string) : string :=
  let padded := sha256_pad (string_bytes data) in
  bytes_string
    (flat_map (big_endian 4) (sha256_blocks (length padded) H256 padded)).

(** The elements a [for] loop or a tuple unpacking draws from a value;
    [None] when the value is not iterable.  A digest is a [bytes] object
    of 32 bytes. *)
Definition elements (v : Value) : option (list Value) :=
  match v with
  | VList l => Some l
  | VTuple l => Some l
  | VStr s => Some (chars s)
  | VBytes s => Some (byte_values s)
  | VDigest data => Some (byte_values (sha256 data))
  | _ => None
  end.

(** ** Exceptions *)

(** The exception classes the handlers of the file tell apart:
    [ConnectionManagerError] and [OutboundDeliveryError] (both derive from
    [Exception]), any other class deriving from [Exception], and the
    classes that derive from [BaseException] only ([KeyboardInterrupt],
    [SystemExit], [GeneratorExit]), which [except Exception] lets pass. *)
Inductive exn : Type :=
| ConnectionManagerError
| OutboundDeliveryError
| PyException (cls : string)
| PyBaseException (cls : string).

Definition is_Exception (e : exn) : bool :=
  match e with
  | PyBaseException _ => false
  | _ => true
  end.

Definition is_ConnectionManagerError (e : exn) : bool :=
  match e with
  | ConnectionManagerError => true
  | _ => false
  end.

Definition is_OutboundDeliveryError (e : exn) : bool :=
  match e with
  | OutboundDeliveryError => true
  | _ => false
  end.

Definition AttributeError : exn := PyException "AttributeError".
Definition TypeError : exn := PyException "TypeError".
Definition ValueError : exn := PyException "ValueError".

(** ** Messages *)

Record MessageReceipt : Type := {
  direct_response_requested : option string
}.

Record InboundMessage : Type := {
  in_payload : Value;
  receipt : MessageReceipt;
  transport_type : Value
}.

Record OutboundMessage : Type := {
  payload : Value;
  target : Value;
  target_list : Value;
  connection_id : Value
}.

Definition set_target_list (m : OutboundMessage) (v : Value) : OutboundMessage :=
  {| payload := payload m; target := target m; target_list := v;
     connection_id := connection_id m |}.

(** Modelled from the spec: the constant [InboundSession.REPLY_MODE_NONE]
    is declared outside this file; the spec names the mode "none". *)
Definition REPLY_MODE_NONE : string := "none".

(** Outbound messages are objects that the router mutates in place and
    then hands on: they live in a store and are passed by reference. *)
Definition loc : Type := positive.

(** ** Calls into collaborators *)

(** Functions handed to collaborators: bound methods of the Conductor and
    of the Dispatcher, and the [lambda] of the inbound router, which
    closes over the message. *)
Inductive Callback : Type :=
| inbound_message_router_ref
| outbound_message_router_ref
| run_task_ref (dispatcher : Value)
| put_task_ref (dispatcher : Value)
| dispatch_complete_lambda (message : InboundMessage).

Inductive Call : Type :=
| ContextBuilder_build (builder : Value)
| Dispatcher_init (context : Value)
| InboundTransportManager_init (context : Value) (router : Callback)
| InboundTransportManager_setup (mgr : Value)
| InboundTransportManager_start (mgr : Value)
| OutboundTransportManager_init (context : Value) (run_task : Callback)
| OutboundTransportManager_setup (mgr : Value)
| OutboundTransportManager_start (mgr : Value)
| settings_get (context : Value) (key : string) (default : Value)
| settings_getitem (context : Value) (key : string)
| AdminServer_init (host port context : Value) (responder put_task : Callback)
| add_webhook_target (server url : Value)
| AdminServer_start (server : Value)
| bind_instance (context cls instance : Value)
| inject (context cls : Value) (required : bool)
| Collector_wrap (collector obj names : Value)
| wallet_config (context : Value)
| ledger_config (context public_did : Value)
| get_attribute (obj : Value) (name : string)
| values (obj : Value)
| print_banner (default_label inbound outbound public_did admin : Value)
| ConnectionManager_init (context : Value)
| create_static_connection
    (mgr my_seed their_seed their_endpoint their_role alias : Value)
| create_invitation (mgr their_role my_label multi_use public : Value)
| to_url (invitation base_url : Value)
| queue_message (dispatcher : Value) (message : InboundMessage)
    (responder complete : Callback)
| dispatch_complete (mgr : Value) (message : InboundMessage)
    (task exc_info : Value)
| get_connection_targets (mgr connection_id : Value)
| deliver (mgr context : Value) (ref : loc) (outbound : OutboundMessage).

(** The object a method is looked up on, for the calls that are method
    calls or attribute reads.  A lookup on [None] raises [AttributeError]
    before anything is called. *)
Definition receiver (c : Call) : option Value :=
  match c with
  | ContextBuilder_build b => Some b
  | InboundTransportManager_setup m | InboundTransportManager_start m => Some m
  | OutboundTransportManager_setup m | OutboundTransportManager_start m => Some m
  | settings_get ctx _ _ | settings_getitem ctx _ => Some ctx
  | add_webhook_target s _ | AdminServer_start s => Some s
  | bind_instance ctx _ _ | inject ctx _ _ => Some ctx
  | Collector_wrap c _ _ => Some c
  | get_attribute o _ | values o => Some o
  | create_static_connection m _ _ _ _ _ | create_invitation m _ _ _ _ => Some m
  | to_url i _ => Some i
  | queue_message d _ _ _ => Some d
  | dispatch_complete m _ _ _ => Some m
  | get_connection_targets m _ => Some m
  | deliver m _ _ _ => Some m
  | _ => None
  end.

Inductive Result : Type :=
| Returns (v : Value)
| Raises (e : exn).

Record Event : Type := {
  ev_call : Call;
  ev_result : Result
}.

(** ** Log records and the state of the Conductor *)

Inductive Level : Type := WARNING | ERROR.

Record LogRecord : Type := {
  level : Level;
  msg : string;
  args : list Value;
  exc_info : option exn
}.

Record Conductor : Type := {
  admin_server : Value;
  context : Value;
  context_builder : Value;
  dispatcher : Value;
  inbound_transport_manager : Value;
  outbound_transport_manager : Value
}.

(** [Conductor.__init__] *)
Definition init (builder : Value) : Conductor :=
  {| admin_server := VNone; context := VNone; context_builder := builder;
     dispatcher := VNone; inbound_transport_manager := VNone;
     outbound_transport_manager := VNone |}.

Definition set_admin_server (c : Conductor) (v : Value) : Conductor :=
  {| admin_server := v; context := context c;
     context_builder := context_builder c; dispatcher := dispatcher c;
     inbound_transport_manager := inbound_transport_manager c;
     outbound_transport_manager := outbound_transport_manager c |}.

Definition set_context (c : Conductor) (v : Value) : Conductor :=
  {| admin_server := admin_server c; context := v;
     context_builder := context_builder c; dispatcher := dispatcher c;
     inbound_transport_manager := inbound_transport_manager c;
     outbound_transport_manager := outbound_transport_manager c |}.

Definition set_dispatcher (c : Conductor) (v : Value) : Conductor :=
  {| admin_server := admin_server c; context := context c;
     context_builder := context_builder c; dispatcher := v;
     inbound_transport_manager := inbound_transport_manager c;
     outbound_transport_manager := outbound_transport_manager c |}.

Definition set_inbound_transport_manager (c : Conductor) (v : Value) : Conductor :=
  {| admin_server := admin_server c; context := context c;
     context_builder := context_builder c; dispatcher := dispatcher c;
     inbound_transport_manager := v;
     outbound_transport_manager := outbound_transport_manager c |}.

Definition set_outbound_transport_manager (c : Conductor) (v : Value) : Conductor :=
  {| admin_server := admin_server c; context := context c;
     context_builder := context_builder c; dispatcher := dispatcher c;
     inbound_transport_manager := inbound_transport_manager c;
     outbound_transport_manager := v |}.

(** ** The state and exception monad *)

(** How a block of statements ends: it runs to its end with a value, it
    executes a [return] statement (every function here returns [None]),
    or it raises. *)
Inductive Outcome (A : Type) : Type :=
| Normal (a : A)
| Returned
| Raised (e : exn).

Arguments Normal {A} a.
Arguments Returned {A}.
Arguments Raised {A} e.

Section Model.

(** The state of the collaborators. *)
Variable Ext : Type.

(** The world a method of the Conductor runs in: the Conductor itself,
    the store of outbound messages, what was logged and printed, the calls
    made into the collaborators with their answers, oldest first, and the
    state of the collaborators. *)
Record World : Type := {
  self : Conductor;
  heap : gmap loc OutboundMessage;
  log : list LogRecord;
  stdout : list (list Value);
  trace : list Event;
  ext : Ext
}.

Definition M (A : Type) : Type := World -> Outcome A * World.

Definition ret {A} (a : A) : M A := fun w => (Normal a, w).

Definition bind {A B} (m : M A) (k : A -> M B) : M B :=
  fun w =>
    match m w with
    | (Normal a, w') => k a w'
    | (Returned, w') => (Returned, w')
    | (Raised e, w') => (Raised e, w')
    end.

Definition raise {A} (e : exn) : M A := fun w => (Raised e, w).

(** The statement [return]. *)
Definition return_ {A} : M A := fun w => (Returned, w).

(** A function body: a [return] inside it ends the call normally. *)
Definition def (body : M unit) : M unit :=
  fun w =>
    match body w with
    | (Returned, w') => (Normal tt, w')
    | r => r
    end.

(** [try: body except cls: handler], where [handles e] is
    [isinstance(e, cls)]. *)
Definition try_except {A} (body : M A) (handles : exn -> bool)
    (handler : exn -> M A) : M A :=
  fun w =>
    match body w with
    | (Raised e, w') => if handles e then handler e w' else (Raised e, w')
    | r => r
    end.

Definition pass : M unit := ret tt.

End Model.

Arguments self {Ext} w.
Arguments heap {Ext} w.
Arguments log {Ext} w.
Arguments stdout {Ext} w.
Arguments trace {Ext} w.
Arguments ext {Ext} w.
Arguments ret {Ext A} a w.
Arguments bind {Ext A B} m k w.
Arguments raise {Ext A} e w.
Arguments return_ {Ext A} w.
Arguments def {Ext} body w.
Arguments try_except {Ext A} body handles handler w.
Arguments pass {Ext} w.

Declare Scope conductor_scope.
Delimit Scope conductor_scope with py.

Notation "'let*' x ':=' m 'in' k" := (bind m (fun x => k))
  (at level 10, x name, m at level 100, k at level 200) : conductor_scope.
Notation "m ;; k" := (bind m (fun _ => k))
  (at level 100, k at level 200, right associativity) : conductor_scope.

#[local] Open Scope conductor_scope.

Section Operations.

Context {Ext : Type}.
Variable env : Ext -> Call -> Result * Ext.

Definition get_self : M Ext Conductor := fun w => (Normal (self w), w).

Definition set_self (f : Conductor -> Conductor) : M Ext unit :=
  fun w =>
    (Normal tt,
     {| self := f (self w); heap := heap w; log := log w;
        stdout := stdout w; trace := trace w; ext := ext w |}).

Definition emit (r : LogRecord) : M Ext unit :=
  fun w =>
    (Normal tt,
     {| self := self w; heap := heap w; log := log w ++ [r];
        stdout := stdout w; trace := trace w; ext := ext w |}).

(** [LOGGER.warning] with a message and its arguments *)
Definition LOGGER_warning (m : string) (a : list Value) : M Ext unit :=
  emit {| level := WARNING; msg := m; args := a; exc_info := None |}.

(** [LOGGER.exception(msg)] inside the handler of [e] *)
Definition LOGGER_exception (m : string) (e : exn) : M Ext unit :=
  emit {| level := ERROR; msg := m; args := []; exc_info := Some e |}.

(** The builtin [print], one record per call. *)
Definition print (a : list Value) : M Ext unit :=
  fun w =>
    (Normal tt,
     {| self := self w; heap := heap w; log := log w;
        stdout := stdout w ++ [a]; trace := trace w; ext := ext w |}).

(** The world after the environment answered call [c] with [r] and moved
    to [x]: the call and its answer are appended to the trace. *)
Definition answered (w : World Ext) (c : Call) (r : Result) (x : Ext) : World Ext :=
  {| self := self w; heap := heap w; log := log w; stdout := stdout w;
     trace := trace w ++ [{| ev_call := c; ev_result := r |}];
     ext := x |}.

Definition ask (c : Call) : M Ext Value :=
  fun w =>
    let (r, x) := env (ext w) c in
    match r with
    | Returns v => (Normal v, answered w c r x)
    | Raises e => (Raised e, answered w c r x)
    end.

(** A call into a collaborator.  Looking the method up on [None] raises
    [AttributeError] and nothing is called. *)
Definition call (c : Call) : M Ext Value :=
  match receiver c with
  | Some v => if is_None v then raise AttributeError else ask c
  | None => ask c
  end.

(** [obj.name] for a bound method that is handed on, not called. *)
Definition method_ref (obj : Value) (ref : Value -> Callback) : M Ext Callback :=
  if is_None obj then raise AttributeError else ret (ref obj).

(** [obj.name] for a method that is called once its arguments are
    evaluated: the lookup comes first, and on [None] it raises
    [AttributeError] before any argument is evaluated. *)
Definition lookup (obj : Value) : M Ext unit :=
  if is_None obj then raise AttributeError else ret tt.

(** Reading the outbound message behind a reference; a reference to
    nothing stands for an object without the attributes of a message. *)
Definition read (l : loc) : M Ext OutboundMessage :=
  fun w =>
    match heap w !! l with
    | Some m => (Normal m, w)
    | None => (Raised AttributeError, w)
    end.

(** [outbound.target_list = v] *)
Definition write_target_list (l : loc) (v : Value) : M Ext unit :=
  fun w =>
    match heap w !! l with
    | Some m =>
        (Normal tt,
         {| self := self w; heap := <[l := set_target_list m v]> (heap w);
            log := log w; stdout := stdout w; trace := trace w;
            ext := ext w |})
    | None => (Raised AttributeError, w)
    end.

(** [for x in v: body] *)
Fixpoint for_each (l : list Value) (body : Value -> M Ext unit) : M Ext unit :=
  match l with
  | [] => pass
  | x :: l' => body x ;; for_each l' body
  end.

Definition iterate (v : Value) : M Ext (list Value) :=
  match elements v with
  | Some l => ret l
  | None => raise TypeError
  end.

(** [a, b = v] *)
Definition unpack2 (v : Value) : M Ext (Value * Value) :=
  match elements v with
  | Some [a; b] => ret (a, b)
  | Some _ => raise ValueError
  | None => raise TypeError
  end.

(** *** The inbound router *)

(** The guard of the warning: [receipt.direct_response_requested and
    receipt.direct_response_requested != REPLY_MODE_NONE]. *)
Definition direct_response_warned (message : InboundMessage) : bool :=
  match direct_response_requested (receipt message) with
  | None => false
  | Some s => negb (s =? "") && negb (s =? REPLY_MODE_NONE)
  end.

Definition inbound_message_router (message : InboundMessage) : M Ext unit :=
  def (
    (if direct_response_warned message
     then LOGGER_warning
            "Direct response requested, but not supported by transport: %s"
            [transport_type message]
     else pass) ;;
    let* this := get_self in
    call (queue_message (dispatcher this) message
            outbound_message_router_ref
            (dispatch_complete_lambda message)) ;;
    ret tt).

(** The body of [lambda task, exc_info:
    self.inbound_transport_manager.dispatch_complete(message, task, exc_info)]. *)
Definition apply_dispatch_complete_lambda (message : InboundMessage)
    (task exc : Value) : M Ext Value :=
  let* this := get_self in
  call (dispatch_complete (inbound_transport_manager this) message task exc).

(** *** The outbound router *)

Definition outbound_message_router (ctx : Value) (outbound : loc)
    (inbound : option InboundMessage) : M Ext unit :=
  def (
    let* m := read outbound in
    (if negb (truthy (target m)) && negb (truthy (target_list m))
          && truthy (connection_id m)
     then
       let* mgr := call (ConnectionManager_init ctx) in
       try_except
         (let* targets := call (get_connection_targets mgr (connection_id m)) in
          write_target_list outbound targets)
         is_ConnectionManagerError
         (fun e =>
            LOGGER_exception
              "Error preparing outbound message for transmission" e ;;
            return_)
     else pass) ;;
    try_except
      (let* this := get_self in
       let* m' := read outbound in
       call (deliver (outbound_transport_manager this) ctx outbound m') ;;
       ret tt)
      is_OutboundDeliveryError
      (fun e =>
         LOGGER_warning
           "Cannot queue message for delivery, no supported transport" [] ;;
         return_)).

(** *** setup *)

(** [for url in webhook_urls: self.admin_server.add_webhook_target(url)] *)
Definition add_webhook_targets (srv : Value) (urls : list Value) : M Ext unit :=
  for_each urls (fun url => call (add_webhook_target srv url) ;; ret tt).

(** Admin API (lines 81 to 100). *)
Definition setup_admin_api (ctx d : Value) : M Ext unit :=
  let* enabled := call (settings_get ctx "admin.enabled" VNone) in
  if truthy enabled then
    try_except
      (let* admin_host := call (settings_get ctx "admin.host" (VStr "0.0.0.0")) in
       let* admin_port := call (settings_get ctx "admin.port" (VStr "80")) in
       let* put_task := method_ref d put_task_ref in
       let* srv := call (AdminServer_init admin_host admin_port ctx
                           outbound_message_router_ref put_task) in
       set_self (fun c => set_admin_server c srv) ;;
       let* webhook_urls := call (settings_get ctx "admin.webhook_urls" VNone) in
       (if truthy webhook_urls then
          let* urls := iterate webhook_urls in
          add_webhook_targets srv urls
        else pass) ;;
       call (bind_instance ctx (VClass "BaseAdminServer") srv) ;;
       ret tt)
      is_Exception
      (fun e => LOGGER_exception "Unable to register admin server" e ;; raise e)
  else pass.

(** Fetch stats collector, if any (lines 102 to 123). *)
Definition fetch_stats_collector (ctx d : Value) : M Ext unit :=
  let* collector := call (inject ctx (VClass "Collector") false) in
  if truthy collector then
    (* add stats to our own methods *)
    call (Collector_wrap collector VConductor
            (VTuple [VStr "outbound_message_router"])) ;;
    call (Collector_wrap collector d (VStr "handle_message")) ;;
    (* at the class level (!) should not be performed multiple times *)
    call (Collector_wrap collector (VClass "ConnectionManager")
            (VTuple [VStr "get_connection_targets";
                     VStr "fetch_did_document";
                     VStr "find_message_connection"])) ;;
    ret tt
  else pass.

Definition setup : M Ext unit :=
  def (
    let* this := get_self in
    let* ctx := call (ContextBuilder_build (context_builder this)) in
    let* d := call (Dispatcher_init ctx) in
    set_self (fun c => set_dispatcher c d) ;;
    (* Register all inbound transports *)
    let* itm := call (InboundTransportManager_init ctx inbound_message_router_ref) in
    set_self (fun c => set_inbound_transport_manager c itm) ;;
    call (InboundTransportManager_setup itm) ;;
    (* Register all outbound transports *)
    let* run_task := method_ref d run_task_ref in
    let* otm := call (OutboundTransportManager_init ctx run_task) in
    set_self (fun c => set_outbound_transport_manager c otm) ;;
    call (OutboundTransportManager_setup otm) ;;
    setup_admin_api ctx d ;;
    fetch_stats_collector ctx d ;;
    set_self (fun c => set_context c ctx)).

(** *** start *)

(** Start up transports (lines 138 to 148). *)
Definition start_transports (this : Conductor) : M Ext unit :=
  try_except
    (call (InboundTransportManager_start (inbound_transport_manager this)) ;;
     ret tt)
    is_Exception
    (fun e => LOGGER_exception "Unable to start inbound transports" e ;; raise e) ;;
  try_except
    (call (OutboundTransportManager_start (outbound_transport_manager this)) ;;
     ret tt)
    is_Exception
    (fun e => LOGGER_exception "Unable to start outbound transports" e ;; raise e).

(** Start up Admin server (lines 152 to 161). *)
Definition start_admin_server (this : Conductor) (ctx : Value) : M Ext unit :=
  if truthy (admin_server this) then
    try_except
      (call (AdminServer_start (admin_server this)) ;; ret tt)
      is_Exception
      (fun e => LOGGER_exception "Unable to start administration API" e) ;;
    (* Make admin responder available during message parsing *)
    lookup ctx ;;
    let* responder := call (get_attribute (admin_server this) "responder") in
    call (bind_instance ctx (VClass "BaseResponder") responder) ;;
    ret tt
  else pass.

(** Get agent label and show the banner (lines 163 to 173). *)
Definition show_banner (this : Conductor) (ctx public_did : Value) : M Ext unit :=
  let* default_label := call (settings_get ctx "default_label" VNone) in
  let* inbound := call (get_attribute (inbound_transport_manager this)
                          "registered_transports") in
  let* registered := call (get_attribute (outbound_transport_manager this)
                             "registered_transports") in
  let* outbound := call (values registered) in
  call (print_banner default_label inbound outbound public_did
          (admin_server this)) ;;
  ret tt.

(** Create a static connection for use by the test-suite (lines 175 to 190). *)
Definition create_test_suite_connection (this : Conductor) (ctx : Value)
    : M Ext unit :=
  let* endpoint_set := call (settings_get ctx "debug.test_suite_endpoint" VNone) in
  if truthy endpoint_set then
    let* mgr := call (ConnectionManager_init (context this)) in
    let* their_endpoint := call (settings_getitem ctx "debug.test_suite_endpoint") in
    let* test_conn :=
      call (create_static_connection mgr
              (VDigest "aries-protocol-test-subject")
              (VDigest "aries-protocol-test-suite")
              their_endpoint (VStr "tester") (VStr "test-suite")) in
    print [VStr "Created static connection for test suite"] ;;
    let* my_did := call (get_attribute test_conn "my_did") in
    print [VStr " - My DID:"; my_did] ;;
    let* their_did := call (get_attribute test_conn "their_did") in
    print [VStr " - Their DID:"; their_did] ;;
    print [VStr " - Their endpoint:"; their_endpoint] ;;
    print []
  else pass.

(** Print an invitation to the terminal (lines 192 to 207). *)
Definition print_invitation (this : Conductor) (ctx : Value) : M Ext unit :=
  let* wanted := call (settings_get ctx "debug.print_invitation" VNone) in
  if truthy wanted then
    try_except
      (let* mgr := call (ConnectionManager_init (context this)) in
       lookup mgr ;;
       let* their_role := call (settings_get ctx "debug.invite_role" VNone) in
       let* my_label := call (settings_get ctx "debug.invite_label" VNone) in
       let* multi_use :=
         call (settings_get ctx "debug.invite_multi_use" (VBool false)) in
       let* public := call (settings_get ctx "debug.invite_public" (VBool false)) in
       let* pair := call (create_invitation mgr their_role my_label multi_use public) in
       let* unpacked := unpack2 pair in
       let* base_url := call (settings_get ctx "invite_base_url" VNone) in
       let* invite_url := call (to_url (snd unpacked) base_url) in
       print [VStr "Invitation URL:"] ;;
       print [invite_url])
      is_Exception
      (fun e => LOGGER_exception "Error creating invitation" e)
  else pass.

Definition start : M Ext unit :=
  def (
    let* this := get_self in
    let ctx := context this in
    (* Configure the wallet *)
    let* public_did := call (wallet_config ctx) in
    (* Configure the ledger *)
    call (ledger_config ctx public_did) ;;
    start_transports this ;;
    start_admin_server this ctx ;;
    show_banner this ctx public_did ;;
    create_test_suite_connection this ctx ;;
    print_invitation this ctx).

(** The statements of [start] that follow the start of the admin
    server: banner, test-suite connection, invitation. *)
Definition after_startup (this : Conductor) (ctx public_did : Value) : M Ext unit :=
  show_banner this ctx public_did ;;
  create_test_suite_connection this ctx ;;
  print_invitation this ctx.

End Operations.

Arguments answered {Ext} w c r x.

(** ** stop *)

(** The calls of [stop]: the construction of the task queue, the call of
    the method [stop] of a component, which hands back a coroutine, the
    queue's [run] on that coroutine, and the queue's [complete]. *)
Inductive StopCall : Type :=
| TaskQueue_init
| component_stop (component : Value)
| TaskQueue_run (queue coro : Value)
| TaskQueue_complete (queue timeout : Value).

Record StopEvent : Type := {
  stop_call : StopCall;
  stop_result : Result
}.

(** What [stop] adds to the world: the calls it made so far, and the
    state of the collaborators that answer them. *)
Record Shutdown (X : Type) : Type := {
  stopped : list StopEvent;
  collaborators : X
}.

Arguments stopped {X} s.
Arguments collaborators {X} s.

Section Stop.

Context {X : Type}.
Variable env : X -> StopCall -> Result * X.

Definition stop_answered (w : World (Shutdown X)) (c : StopCall) (r : Result)
    (x : X) : World (Shutdown X) :=
  {| self := self w; heap := heap w; log := log w; stdout := stdout w;
     trace := trace w;
     ext := {| stopped := stopped (ext w)
                          ++ [{| stop_call := c; stop_result := r |}];
               collaborators := x |} |}.

Definition stop_ask (c : StopCall) : M (Shutdown X) Value :=
  fun w =>
    let (r, x) := env (collaborators (ext w)) c in
    match r with
    | Returns v => (Normal v, stop_answered w c r x)
    | Raises e => (Raised e, stop_answered w c r x)
    end.

(** [obj.name] for a method that is about to be called: on [None] the
    lookup raises [AttributeError]. *)
Definition lookup_method (obj : Value) : M (Shutdown X) unit :=
  if is_None obj then raise AttributeError else ret tt.

(** [if component: shutdown.run(component.stop())]: [shutdown.run] is
    looked up before the argument is evaluated. *)
Definition stop_component (shutdown component : Value) : M (Shutdown X) unit :=
  if truthy component then
    lookup_method shutdown ;;
    let* coro := stop_ask (component_stop component) in
    stop_ask (TaskQueue_run shutdown coro) ;;
    ret tt
  else pass.

(** [stop(self, timeout)]; a caller that passes no timeout passes the
    default of the parameter, the float 1.0.  [stop] hands the timeout on
    and does nothing else with it. *)
Definition stop (timeout : Value) : M (Shutdown X) unit :=
  def (
    let* shutdown := stop_ask TaskQueue_init in
    let* this := get_self in
    stop_component shutdown (admin_server this) ;;
    stop_component shutdown (inbound_transport_manager this) ;;
    stop_component shutdown (outbound_transport_manager this) ;;
    lookup_method shutdown ;;
    stop_ask (TaskQueue_complete shutdown timeout) ;;
    ret tt).

End Stop.

(** ** Scripted environments *)

(** A test double for the collaborators: the answers are taken from a
    script, one per call, in order; once the script is used up every call
    returns [None]. *)
Definition scripted (script : list Result) (c : Call) : Result * list Result :=
  match script with
  | r :: rest => (r, rest)
  | [] => (Returns VNone, [])
  end.

(** A configured Conductor, as [setup] leaves it. *)
Definition configured (admin : Value) : Conductor :=
  {| admin_server := admin; context := VObj 1; context_builder := VObj 0;
     dispatcher := VObj 2; inbound_transport_manager := VObj 3;
     outbound_transport_manager := VObj 4 |}.

(** The world of a Conductor [c] with outbound messages [h], nothing
    logged or called yet, and the collaborators about to follow [script]. *)
Definition world_of (c : Conductor) (h : gmap loc OutboundMessage)
    (script : list Result) : World (list Result) :=
  {| self := c; heap := h; log := []; stdout := []; trace := []; ext := script |}.

(** Two delivery targets. *)
Definition T1 : Value := VObj 101.
Definition T2 : Value := VObj 102.

Definition message_to (t tl cid : Value) : OutboundMessage :=
  {| payload := VStr "{}"; target := t; target_list := tl; connection_id := cid |}.

(** A message with a target list of one target, and no answers scripted. *)
Definition targeted_world : World (list Result) :=
  world_of (configured VNone)
    {[ 1%positive := message_to VNone (VList [T1]) (VStr "c1") ]} [].

(** A message with only a connection identifier; the connection manager
    is constructed and then fails to resolve the connection. *)
Definition unresolved_world : World (list Result) :=
  world_of (configured VNone)
    {[ 1%positive := message_to VNone VNone (VStr "c1") ]}
    [Returns (VObj 7); Raises ConnectionManagerError].

(** The same message; the connection resolves to two targets and the
    delivery finds no transport. *)
Definition undeliverable_world : World (list Result) :=
  world_of (configured VNone)
    {[ 1%positive := message_to VNone VNone (VStr "c1") ]}
    [Returns (VObj 7); Returns (VList [T1; T2]); Raises OutboundDeliveryError].

(** The same message; the resolution fails with an error of another class. *)
Definition broken_resolution_world : World (list Result) :=
  world_of (configured VNone)
    {[ 1%positive := message_to VNone VNone (VStr "c1") ]}
    [Returns (VObj 7); Raises (PyException "StorageError")].

(** An inbound message received over a websocket that asks for all
    responses to be sent back directly. *)
Definition ws_message : InboundMessage :=
  {| in_payload := VStr "{}";
     receipt := {| direct_response_requested := Some "all" |};
     transport_type := VStr "ws" |}.

(** A configured Conductor without outbound messages. *)
Definition idle_world (script : list Result) : World (list Result) :=
  world_of (configured VNone) ∅ script.

(** The answers to one run of [setup] with the admin API disabled and a
    stats collector bound in the context. *)
Definition setup_answers : list Result :=
  [Returns (VObj 1); Returns (VObj 2); Returns (VObj 3); Returns VNone;
   Returns (VObj 4); Returns VNone; Returns (VBool false); Returns (VObj 9);
   Returns VNone; Returns VNone; Returns VNone].

(** A Conductor as constructed, about to be set up twice. *)
Definition fresh_world : World (list Result) :=
  world_of (init (VObj 0)) ∅ (setup_answers ++ setup_answers).

(** A configured Conductor with an admin server whose start fails with
    an [OSError]; everything else succeeds and no debug flag is set. *)
Definition admin_fails_world : World (list Result) :=
  world_of (configured (VObj 5)) ∅
    [Returns (VStr "did:sov:me"); Returns VNone; Returns VNone; Returns VNone;
     Raises (PyException "OSError"); Returns (VObj 6); Returns VNone;
     Returns (VStr "agent"); Returns (VList []); Returns (VObj 8);
     Returns (VList []); Returns VNone].

(** The same Conductor; the inbound transports fail to start. *)
Definition inbound_fails_world : World (list Result) :=
  world_of (configured (VObj 5)) ∅
    [Returns (VStr "did:sov:me"); Returns VNone;
     Raises (PyException "OSError")].

(** ** Further scenarios *)

(** A message with only a connection identifier; the connection manager
    cannot be constructed. *)
Definition manager_fails_world : World (list Result) :=
  world_of (configured VNone)
    {[ 1%positive := message_to VNone VNone (VStr "c1") ]}
    [Raises (PyException "StorageError")].

(** A Conductor as constructed, handed a message with a target list. *)
Definition unconfigured_world : World (list Result) :=
  world_of (init (VObj 0))
    {[ 1%positive := message_to VNone (VList [T1]) (VStr "c1") ]} [].

(** The answers to the calls with which [setup] wires the components. *)
Definition wiring_answers : list Result :=
  [Returns (VObj 1); Returns (VObj 2); Returns (VObj 3); Returns VNone;
   Returns (VObj 4); Returns VNone].

(** The answers to the settings of the admin API, enabled. *)
Definition admin_answers : list Result :=
  [Returns (VBool true); Returns (VStr "0.0.0.0"); Returns (VStr "80")].

(** A run of [setup] with the admin API enabled, two webhook targets and
    no stats collector. *)
Definition admin_setup_world : World (list Result) :=
  world_of (init (VObj 0)) ∅
    (wiring_answers ++ admin_answers
     ++ [Returns (VObj 5);
         Returns (VList [VStr "http://a/hook"; VStr "http://b/hook"]);
         Returns VNone; Returns VNone; Returns VNone; Returns VNone]).

(** The same; the admin server cannot be constructed. *)
Definition admin_init_fails_world : World (list Result) :=
  world_of (init (VObj 0)) ∅
    (wiring_answers ++ admin_answers ++ [Raises (PyException "OSError")]).

(** The same; the setting [admin.webhook_urls] is the number 5. *)
Definition bad_webhooks_world : World (list Result) :=
  world_of (init (VObj 0)) ∅
    (wiring_answers ++ admin_answers ++ [Returns (VObj 5); Returns (VInt 5)]).

(** The answers to the configuration of wallet and ledger and to the
    start of the two transport managers. *)
Definition startup_answers : list Result :=
  [Returns (VStr "did:sov:me"); Returns VNone; Returns VNone; Returns VNone].

(** The answers to the calls of the banner block. *)
Definition banner_answers : list Result :=
  [Returns (VStr "agent"); Returns (VList []); Returns (VObj 8);
   Returns (VList []); Returns VNone].

(** A run of [start] without admin server that creates the connection
    for the test suite. *)
Definition test_suite_world : World (list Result) :=
  world_of (configured VNone) ∅
    (startup_answers ++ banner_answers
     ++ [Returns (VStr "http://suite"); Returns (VObj 7);
         Returns (VStr "http://suite"); Returns (VObj 10);
         Returns (VStr "did:sov:mine"); Returns (VStr "did:sov:theirs")]).

(** The answers of the invitation block up to the creation of the
    invitation; the test-suite endpoint is not set. *)
Definition invitation_answers : list Result :=
  [Returns VNone; Returns (VBool true); Returns (VObj 7);
   Returns (VStr "admin"); Returns (VStr "agent"); Returns (VBool false);
   Returns (VBool false)].

(** A run of [start] in which the invitation cannot be created. *)
Definition invitation_fails_world : World (list Result) :=
  world_of (configured VNone) ∅
    (startup_answers ++ banner_answers ++ invitation_answers
     ++ [Raises ConnectionManagerError]).

(** A run of [start] in which [create_invitation] returns one object
    instead of a pair. *)
Definition malformed_invitation_world : World (list Result) :=
  world_of (configured VNone) ∅
    (startup_answers ++ banner_answers ++ invitation_answers
     ++ [Returns (VObj 11)]).

(** A run of [start] in which the wallet cannot be configured. *)
Definition wallet_fails_world : World (list Result) :=
  world_of (configured VNone) ∅ [Raises (PyException "WalletError")].

(** Collaborators of [stop] that answer from a script. *)
Definition scripted_stop (script : list Result) (c : StopCall)
    : Result * list Result :=
  match script with
  | r :: rest => (r, rest)
  | [] => (Returns VNone, [])
  end.

(** The world of a Conductor [c] about to be stopped. *)
Definition stopping_world (c : Conductor) (script : list Result)
    : World (Shutdown (list Result)) :=
  {| self := c; heap := ∅; log := []; stdout := []; trace := [];
     ext := {| stopped := []; collaborators := script |} |}.

(** A configured Conductor with an admin server, about to be stopped;
    every component hands back a coroutine. *)
Definition stoppable_world : World (Shutdown (list Result)) :=
  stopping_world (configured (VObj 5))
    [Returns (VObj 20); Returns (VObj 21); Returns VNone; Returns (VObj 22);
     Returns VNone; Returns (VObj 23); Returns VNone; Returns VNone].

(** The same Conductor; the admin server fails to stop. *)
Definition admin_stop_fails_world : World (Shutdown (list Result)) :=
  stopping_world (configured (VObj 5))
    [Returns (VObj 20); Raises (PyException "RuntimeError")].

(** ** Observing a run *)

(** The events a run added to the trace, given the worlds before and
    after it. *)
Definition calls_since {Ext} (w w' : World Ext) : list Event :=
  drop (length (trace w)) (trace w').

(** The log records a run added. *)
Definition logged_since {Ext} (w w' : World Ext) : list LogRecord :=
  drop (length (log w)) (log w').

Definition is_resolution (ev : Event) : bool :=
  match ev_call ev with
  | get_connection_targets _ _ => true
  | _ => false
  end.

Definition is_delivery (ev : Event) : bool :=
  match ev_call ev with
  | deliver _ _ _ _ => true
  | _ => false
  end.

(** The calls to [ConnectionManager.get_connection_targets] among events. *)
Definition resolutions (evs : list Event) : list Event := List.filter is_resolution evs.

(** The calls to [OutboundTransportManager.deliver] among events. *)
Definition deliveries (evs : list Event) : list Event := List.filter is_delivery evs.

(** A message that carries only a connection identifier, as the guard of
    the outbound router tests it. *)
Definition connection_only (m : OutboundMessage) : bool :=
  negb (truthy (target m)) && negb (truthy (target_list m))
  && truthy (connection_id m).



(** The calls of the start-up proper: starting the transports and the
    admin server, reading the responder and binding into the context. *)
Definition is_startup_call (c : Call) : bool :=
  match c with
  | InboundTransportManager_start _ => true
  | OutboundTransportManager_start _ => true
  | AdminServer_start _ => true
  | get_attribute _ name => name =? "responder"
  | bind_instance _ _ _ => true
  | _ => false
  end.

Definition quiet (c : Call) : bool := negb (is_startup_call c).

(** [w'] continues [w]: trace and log have grown, by calls that satisfy
    [P]. *)
Definition extends {Ext} (P : Call -> bool) (w w' : World Ext) : Prop :=
  exists evs logs,
    trace w' = trace w ++ evs /\ log w' = log w ++ logs
    /\ Forall (fun ev => P (ev_call ev) = true) evs.

Definition inbound_start_failed (e : exn) : LogRecord :=
  {| level := ERROR; msg := "Unable to start inbound transports";
     args := []; exc_info := Some e |}.

Definition outbound_start_failed (e : exn) : LogRecord :=
  {| level := ERROR; msg := "Unable to start outbound transports";
     args := []; exc_info := Some e |}.

Definition admin_start_failed (e : exn) : LogRecord :=
  {| level := ERROR; msg := "Unable to start administration API";
     args := []; exc_info := Some e |}.

(** The default responder is bound by a call among [evs]. *)
Definition responder_bound (evs : list Event) : Prop :=
  exists ctx r res,
    In {| ev_call := bind_instance ctx (VClass "BaseResponder") r;
          ev_result := res |} evs.

(** The start of the admin server raised in a call among [evs]. *)
Definition admin_start_raised (evs : list Event) : Prop :=
  exists srv e,
    In {| ev_call := AdminServer_start srv; ev_result := Raises e |} evs.

(** Fetching the collector and wrapping with it. *)
Definition is_stats_call (c : Call) : bool :=
  match c with
  | inject _ _ _ => true
  | Collector_wrap _ _ _ => true
  | _ => false
  end.

Definition plain (c : Call) : bool := negb (is_stats_call c).

Definition names_include (names : Value) (method : string) : bool :=
  match names with
  | VStr s => s =? method
  | VTuple l | VList l =>
      existsb (fun v => match v with VStr s => s =? method | _ => false end) l
  | _ => false
  end.

(** A completed call that wraps [method] of the class [cls]. *)
Definition is_class (cls : string) (obj : Value) : bool :=
  match obj with
  | VClass c => c =? cls
  | _ => false
  end.

Definition wraps (cls method : string) (ev : Event) : bool :=
  match ev_call ev, ev_result ev with
  | Collector_wrap _ obj names, Returns _ =>
      names_include names method && is_class cls obj
  | _, _ => false
  end.

(** Modelled from the spec: [Collector.wrap] is outside this file.  By the
    spec it adds instrumentation around the named methods of its target,
    and keeping it from being applied twice to a shared class is left to
    the caller; so every completed wrap call that names a method of the
    class puts one more layer of instrumentation around it. *)
Definition wrap_layers (cls method : string) (evs : list Event) : nat :=
  length (List.filter (wraps cls method) evs).

(** The class-level methods that [setup] wraps. *)
Definition class_level_methods : list string :=
  ["get_connection_targets"; "fetch_did_document"; "find_message_connection"].

(** The collector was found by a call among [evs]. *)
Definition collector_found (evs : list Event) : Prop :=
  exists ctx c,
    In {| ev_call := inject ctx (VClass "Collector") false;
          ev_result := Returns c |} evs
    /\ truthy c = true.

(** ** Further observations on setup *)

(** The read of the setting that enables the admin API. *)
Definition is_enabled_read (c : Call) : bool :=
  match c with
  | settings_get _ key _ => key =? "admin.enabled"
  | _ => false
  end.

(** The calls of the admin block of [setup] that follow that read. *)
Definition is_admin_construction (c : Call) : bool :=
  match c with
  | settings_get _ key _ =>
      (key =? "admin.host") || (key =? "admin.port")
      || (key =? "admin.webhook_urls")
  | AdminServer_init _ _ _ _ _ => true
  | add_webhook_target _ _ => true
  | bind_instance _ _ _ => true
  | _ => false
  end.

Definition is_admin_api_call (c : Call) : bool :=
  is_enabled_read c || is_admin_construction c.

Definition is_webhook_registration (ev : Event) : bool :=
  match ev_call ev with
  | add_webhook_target _ _ => true
  | _ => false
  end.

(** The registrations of webhook targets among events. *)
Definition webhook_registrations (evs : list Event) : list Event :=
  List.filter is_webhook_registration evs.

Definition admin_register_failed (e : exn) : LogRecord :=
  {| level := ERROR; msg := "Unable to register admin server";
     args := []; exc_info := Some e |}.

(** [c] has the fields of [c0], the admin server apart. *)
Definition same_components (c0 c : Conductor) : Prop :=
  context c = context c0 /\ context_builder c = context_builder c0
  /\ dispatcher c = dispatcher c0
  /\ inbound_transport_manager c = inbound_transport_manager c0
  /\ outbound_transport_manager c = outbound_transport_manager c0.

(** What the collector block wraps: the object and the method names. *)
Definition wrap_targets (d : Value) : list (Value * Value) :=
  [(VConductor, VTuple [VStr "outbound_message_router"]);
   (d, VStr "handle_message");
   (VClass "ConnectionManager",
    VTuple [VStr "get_connection_targets"; VStr "fetch_did_document";
            VStr "find_message_connection"])].

(** The calls with which [setup] builds the context and wires the
    Dispatcher and the two transport managers. *)
Definition is_wiring_call (c : Call) : bool :=
  match c with
  | ContextBuilder_build _ => true
  | Dispatcher_init _ => true
  | InboundTransportManager_init _ _ => true
  | InboundTransportManager_setup _ => true
  | OutboundTransportManager_init _ _ => true
  | OutboundTransportManager_setup _ => true
  | _ => false
  end.

(** The six calls of a completed wiring, with what they returned. *)
Definition wiring (builder ctx d itm otm r1 r2 : Value) : list Event :=
  [{| ev_call := ContextBuilder_build builder; ev_result := Returns ctx |};
   {| ev_call := Dispatcher_init ctx; ev_result := Returns d |};
   {| ev_call := InboundTransportManager_init ctx inbound_message_router_ref;
      ev_result := Returns itm |};
   {| ev_call := InboundTransportManager_setup itm; ev_result := Returns r1 |};
   {| ev_call := OutboundTransportManager_init ctx (run_task_ref d);
      ev_result := Returns otm |};
   {| ev_call := OutboundTransportManager_setup otm; ev_result := Returns r2 |}].

(** [c] differs from [c0] at most in the Dispatcher and the two
    transport managers. *)
Definition self_but_wiring (c0 c : Conductor) : Prop :=
  context c = context c0 /\ context_builder c = context_builder c0
  /\ admin_server c = admin_server c0.

(** ** Further observations on start *)

(** The calls of the banner block. *)
Definition is_banner_call (c : Call) : bool :=
  match c with
  | settings_get _ key _ => key =? "default_label"
  | get_attribute _ name => name =? "registered_transports"
  | values _ => true
  | print_banner _ _ _ _ _ => true
  | _ => false
  end.

(** The calls of the block that creates the test-suite connection. *)
Definition is_test_suite_call (c : Call) : bool :=
  match c with
  | settings_get _ key _ => key =? "debug.test_suite_endpoint"
  | settings_getitem _ key => key =? "debug.test_suite_endpoint"
  | ConnectionManager_init _ => true
  | create_static_connection _ _ _ _ _ _ => true
  | get_attribute _ name => (name =? "my_did") || (name =? "their_did")
  | _ => false
  end.

(** The calls with which the invitation block creates and prints the
    invitation, once its connection manager exists. *)
Definition is_invitation_step (c : Call) : bool :=
  match c with
  | settings_get _ key _ =>
      (key =? "debug.invite_role") || (key =? "debug.invite_label")
      || (key =? "debug.invite_multi_use") || (key =? "debug.invite_public")
      || (key =? "invite_base_url")
  | create_invitation _ _ _ _ _ => true
  | to_url _ _ => true
  | _ => false
  end.

(** The calls of the invitation block. *)
Definition is_invitation_call (c : Call) : bool :=
  match c with
  | settings_get _ key _ =>
      (key =? "debug.print_invitation") || is_invitation_step c
  | ConnectionManager_init _ => true
  | _ => is_invitation_step c
  end.

(** The calls of [start] up to the start of the admin server. *)
Definition is_startup_proper_call (c : Call) : bool :=
  match c with
  | wallet_config _ => true
  | ledger_config _ _ => true
  | _ => is_startup_call c
  end.

(** The calls of [start] after the start of the admin server. *)
Definition is_after_startup_call (c : Call) : bool :=
  is_banner_call c || is_test_suite_call c || is_invitation_call c.

Definition invitation_failed (e : exn) : LogRecord :=
  {| level := ERROR; msg := "Error creating invitation";
     args := []; exc_info := Some e |}.

(** The read of the flag of the invitation block. *)
Definition is_invitation_flag_read (c : Call) : bool :=
  match c with
  | settings_get _ key _ => key =? "debug.print_invitation"
  | _ => false
  end.

(** The construction of a connection manager. *)
Definition is_manager_init (c : Call) : bool :=
  match c with
  | ConnectionManager_init _ => true
  | _ => false
  end.

(** The calls with which [start] starts the admin server and binds its
    responder. *)
Definition is_admin_startup_call (c : Call) : bool :=
  match c with
  | AdminServer_start _ => true
  | get_attribute _ name => name =? "responder"
  | bind_instance _ _ _ => true
  | _ => false
  end.

(** ** Observing a run of stop *)

(** The calls of [stop] between two worlds. *)
Definition stopped_since {X} (w w' : World (Shutdown X)) : list StopEvent :=
  drop (length (stopped (ext w))) (stopped (ext w')).

(** What stopping one component adds to the calls: nothing for a
    component that is not set. *)
Definition stopping (queue component coro r : Value) : list StopEvent :=
  if truthy component then
    [{| stop_call := component_stop component; stop_result := Returns coro |};
     {| stop_call := TaskQueue_run queue coro; stop_result := Returns r |}]
  else [].

(** ** What stops a run of start *)

(** The calls whose result [start] looks a method or an attribute up on. *)
Definition is_dereferenced (c : Call) : bool :=
  match c with
  | get_attribute _ name => name =? "registered_transports"
  | ConnectionManager_init _ => true
  | create_static_connection _ _ _ _ _ _ => true
  | _ => false
  end.

Definition returned_None (ev : Event) : bool :=
  match ev_result ev with
  | Returns v => is_None v
  | Raises _ => false
  end.

(** One of these calls returned [None]. *)
Definition lost_object (evs : list Event) : bool :=
  existsb (fun ev => is_dereferenced (ev_call ev) && returned_None ev) evs.

(** The calls [evs] end a run with the exception [e]: the last of them
    raised [e], or [e] is the [AttributeError] of a lookup on a [None]
    that one of them returned. *)
Definition stopped_by (e : exn) (evs : list Event) : Prop :=
  (exists ev, last evs = Some ev /\ ev_result ev = Raises e)
  \/ (e = AttributeError /\ lost_object evs = true).

(** ** Stepping through a run *)

Lemma drop_length_app {A} (l k : list A) : drop (length l) (l ++ k) = k.
Proof. apply drop_app_length. Qed.

Lemma drop_length_self {A} (l : list A) : drop (length l) l = [].
Proof. apply drop_all. Qed.

(** ** SHA-256 on the examples of the standard *)

(** The one-block and the two-block example of FIPS 180-4. *)
Lemma sha256_one_block :
  string_bytes (sha256 "abc")
  = [
     186; 120; 22; 191; 143; 1; 207; 234;
     65; 65; 64; 222; 93; 174; 34; 35;
     176; 3; 97; 163; 150; 23; 122; 156;
     180; 16; 255; 97; 242; 0; 21; 173
    ]%Z.
Proof. vm_compute. reflexivity. Qed.

Lemma sha256_two_blocks :
  string_bytes
    (sha256 "abcdbcdecdefdefgefghfghighijhijkijkljklmklmnlmnomnopnopq")
  = [
     36; 141; 106; 97; 210; 6; 56; 184;
     229; 192; 38; 147; 12; 62; 96; 57;
     163; 60; 228; 89; 100; 255; 33; 103;
     246; 236; 237; 212; 25; 219; 6; 193
    ]%Z.
Proof. vm_compute. reflexivity. Qed.

Lemma sha256_round_length s kw :
  length s = 8%nat -> length (sha256_round s kw) = 8%nat.
Proof.
  intros H. do 9 (destruct s as [| ? s]; try discriminate H). reflexivity.
Qed.

Lemma sha256_rounds_length kws s :
  length s = 8%nat -> length (fold_left sha256_round kws s) = 8%nat.
Proof.
  revert s. induction kws as [| kw kws IH]; intros s H; [exact H |].
  cbn [fold_left]. apply IH, sha256_round_length, H.
Qed.

Lemma sha256_block_length h block :
  length h = 8%nat -> length (sha256_block h block) = 8%nat.
Proof.
  intros H. unfold sha256_block.
  rewrite length_map, length_combine, sha256_rounds_length by exact H.
  rewrite H. reflexivity.
Qed.

Lemma sha256_blocks_length fuel h bs :
  length h = 8%nat -> length (sha256_blocks fuel h bs) = 8%nat.
Proof.
  revert h bs. induction fuel as [| fuel IH]; intros h bs H; [exact H |].
  cbn [sha256_blocks]. destruct bs; [exact H |].
  apply IH, sha256_block_length, H.
Qed.

Lemma byte_values_length s : length (byte_values s) = String.length s.
Proof. induction s as [| c s IH]; cbn; congruence. Qed.

Lemma bytes_string_length bs : String.length (bytes_string bs) = length bs.
Proof. induction bs as [| b bs IH]; cbn; congruence. Qed.

(** A digest is a sequence of 32 bytes. *)
Lemma digest_elements data :
  exists l, elements (VDigest data) = Some l /\ length l = 32%nat.
Proof.
  eexists. split; [reflexivity |].
  rewrite byte_values_length. unfold sha256. rewrite bytes_string_length.
  pose proof (sha256_blocks_length
                (length (sha256_pad (string_bytes data))) H256
                (sha256_pad (string_bytes data)) eq_refl) as H.
  destruct (sha256_blocks _ H256 _) as [| a l]; [discriminate H |].
  do 8 (destruct l as [| ? l]; try discriminate H). reflexivity.
Qed.

(** Unfolds the monad in hypothesis [H]. *)
Ltac unfold_run H :=
  cbv beta iota zeta delta
    [bind ret raise return_ def try_except pass get_self set_self emit
     LOGGER_warning LOGGER_exception print ask call method_ref lookup read
     write_target_list iterate unpack2 receiver answered] in H;
  cbn [self heap log stdout trace ext] in H.

(** Splits on the first test or answer that [H] is blocked on. *)
Ltac split_run H :=
  match type of H with
  | context [match ?x with _ => _ end] =>
      lazymatch x with
      | context [match _ with _ => _ end] => fail
      | _ => destruct x eqn:?
      end
  | context [if ?x then _ else _] =>
      lazymatch x with
      | context [match _ with _ => _ end] => fail
      | context [if _ then _ else _] => fail
      | _ => destruct x eqn:?
      end
  end.

Ltac finish_run H :=
  repeat (split_run H; cbv beta iota zeta in H;
          cbn [self heap log stdout trace ext] in H;
          rewrite ?lookup_insert_eq in H);
  try discriminate H;
  try (injection H as <- <-);
  simplify_eq.

(** Normalises [calls_since] and [logged_since] on the worlds built by a
    run. *)
Ltac since :=
  unfold calls_since, logged_since, answered in *;
  cbn [trace log heap self ext stdout] in *;
  rewrite <- ?app_assoc in *; cbn [app] in *;
  rewrite ?drop_length_app, ?drop_length_self in *.

(** Goes through the events of [H : In ev evs] for an explicit [evs]. *)
Ltac in_events H :=
  cbn [In] in H;
  repeat (destruct H as [H | H];
          [try discriminate H; inversion H; subst; try clear H | ]);
  try contradiction.

Section RouterFacts.

Context {Ext : Type}.
Variable env : Ext -> Call -> Result * Ext.

Lemma outbound_router_resolution ctx l inbound (w w' : World Ext) out m :
  heap w !! l = Some m ->
  outbound_message_router env ctx l inbound w = (out, w') ->
  (connection_only m = false -> resolutions (calls_since w w') = []).
Proof.
  intros Hm Hrun Hc.
  unfold outbound_message_router in Hrun. unfold_run Hrun.
  rewrite Hm in Hrun. fold (connection_only m) in Hrun.
  rewrite Hc in Hrun. cbv beta iota zeta in Hrun.
  rewrite Hm in Hrun.
  finish_run Hrun; since; reflexivity.
Qed.

Lemma connection_only_true m :
  connection_only m = true ->
  truthy (target m) = false /\ truthy (target_list m) = false
  /\ truthy (connection_id m) = true.
Proof.
  unfold connection_only.
  destruct (truthy (target m)), (truthy (target_list m)),
    (truthy (connection_id m)); cbn; intros H; try discriminate H; auto.
Qed.

Lemma connection_only_false m :
  truthy (target m) = true \/ truthy (target_list m) = true ->
  connection_only m = false.
Proof.
  unfold connection_only.
  intros [-> | ->]; cbn; [reflexivity |].
  destruct (truthy (target m)); reflexivity.
Qed.

End RouterFacts.

(** ** The outbound router *)

(** C4. An outbound message with an explicit target or a non-empty target
    list (a true [target] or [target_list]) makes the router perform no
    call to [get_connection_targets]; whenever the router does call it,
    the message had neither a target nor a target list and had a
    connection identifier. *)
Theorem outbound_router_resolution_precedence {Ext}
    (env : Ext -> Call -> Result * Ext) ctx l inbound (w w' : World Ext) out m :
  heap w !! l = Some m ->
  outbound_message_router env ctx l inbound w = (out, w') ->
  (truthy (target m) = true \/ truthy (target_list m) = true ->
   resolutions (calls_since w w') = [])
  /\ (resolutions (calls_since w w') <> [] ->
      truthy (target m) = false /\ truthy (target_list m) = false
      /\ truthy (connection_id m) = true).
Proof.
  intros Hm Hrun. split.
  - intros Ht. eapply outbound_router_resolution; eauto.
    now apply connection_only_false.
  - intros Hne. destruct (connection_only m) eqn:Hc.
    + now apply connection_only_true.
    + exfalso. apply Hne. eapply outbound_router_resolution; eauto.
Qed.

Lemma outbound_router_resolution_precedence_witness :
  resolutions (calls_since targeted_world
                 (snd (outbound_message_router scripted (VObj 1) 1%positive None
                         targeted_world))) = [].
Proof.
  refine (proj1 (outbound_router_resolution_precedence scripted (VObj 1)
                   1%positive None targeted_world _ _
                   (message_to VNone (VList [T1]) (VStr "c1")) _ _) _).
  - vm_compute. reflexivity.
  - apply surjective_pairing.
  - right. reflexivity.
Defined.

(** C5. When the message carries only a connection identifier and the
    resolution of its targets raises a [ConnectionManagerError], the router
    returns normally, the delivery call is not made, the message is left
    as it was, and the failure is logged. *)
Theorem outbound_router_drops_unresolved {Ext}
    (env : Ext -> Call -> Result * Ext) ctx l inbound (w w' : World Ext) out m mgr e :
  heap w !! l = Some m ->
  connection_only m = true ->
  outbound_message_router env ctx l inbound w = (out, w') ->
  In {| ev_call := get_connection_targets mgr (connection_id m);
        ev_result := Raises e |} (calls_since w w') ->
  is_ConnectionManagerError e = true ->
  out = Normal tt
  /\ deliveries (calls_since w w') = []
  /\ heap w' = heap w
  /\ logged_since w w' =
       [{| level := ERROR;
           msg := "Error preparing outbound message for transmission";
           args := []; exc_info := Some e |}].
Proof.
  intros Hm Hc Hrun Hin He.
  unfold outbound_message_router in Hrun. unfold_run Hrun.
  rewrite Hm in Hrun. fold (connection_only m) in Hrun.
  rewrite Hc in Hrun. cbv beta iota zeta in Hrun.
  finish_run Hrun; since; in_events Hin; try congruence.
  all: repeat split; reflexivity.
Qed.


Lemma outbound_router_drops_unresolved_witness :
  fst (outbound_message_router scripted (VObj 1) 1%positive None unresolved_world)
  = Normal tt
  /\ deliveries
       (calls_since unresolved_world
          (snd (outbound_message_router scripted (VObj 1) 1%positive None
                  unresolved_world))) = [].
Proof.
  refine ((fun H => conj (proj1 H) (proj1 (proj2 H)))
            (outbound_router_drops_unresolved scripted (VObj 1) 1%positive None
               unresolved_world _ _ (message_to VNone VNone (VStr "c1"))
               (VObj 7) ConnectionManagerError _ _ _ _ _)).
  - vm_compute. reflexivity.
  - reflexivity.
  - apply surjective_pairing.
  - vm_compute. right. left. reflexivity.
  - reflexivity.
Defined.

(** C6. When the delivery call raises an [OutboundDeliveryError], the
    router logs a warning and returns normally; the failed delivery is the
    last call it makes and the only delivery call, so the message is
    dropped and nothing is queued for a retry. *)
Theorem outbound_router_drops_undeliverable {Ext}
    (env : Ext -> Call -> Result * Ext) ctx l inbound (w w' : World Ext) out
    mgr c r o e :
  outbound_message_router env ctx l inbound w = (out, w') ->
  In {| ev_call := deliver mgr c r o; ev_result := Raises e |} (calls_since w w') ->
  is_OutboundDeliveryError e = true ->
  out = Normal tt
  /\ last (calls_since w w')
     = Some {| ev_call := deliver mgr c r o; ev_result := Raises e |}
  /\ deliveries (calls_since w w')
     = [{| ev_call := deliver mgr c r o; ev_result := Raises e |}]
  /\ logged_since w w' =
       [{| level := WARNING;
           msg := "Cannot queue message for delivery, no supported transport";
           args := []; exc_info := None |}].
Proof.
  intros Hrun Hin He.
  unfold outbound_message_router in Hrun. unfold_run Hrun.
  finish_run Hrun; since; in_events Hin; try congruence.
  all: repeat split; reflexivity.
Qed.

Lemma outbound_router_drops_undeliverable_witness :
  fst (outbound_message_router scripted (VObj 1) 1%positive None undeliverable_world)
  = Normal tt.
Proof.
  refine (proj1 (outbound_router_drops_undeliverable scripted (VObj 1) 1%positive
                   None undeliverable_world _ _ (VObj 4) (VObj 1) 1%positive
                   (message_to VNone (VList [T1; T2]) (VStr "c1"))
                   OutboundDeliveryError _ _ _)).
  - apply surjective_pairing.
  - vm_compute. right. right. left. reflexivity.
  - reflexivity.
Defined.

(** What the outbound router does to the store and to the Conductor: it
    leaves both alone, or it makes one resolution call that returns [v]
    and stores [v] as the target list of the routed message. *)
Lemma outbound_router_writes {Ext}
    (env : Ext -> Call -> Result * Ext) ctx l inbound (w w' : World Ext) out m :
  heap w !! l = Some m ->
  outbound_message_router env ctx l inbound w = (out, w') ->
  self w' = self w
  /\ (heap w' = heap w
      \/ (connection_only m = true
          /\ exists mgr v,
               resolutions (calls_since w w')
               = [{| ev_call := get_connection_targets mgr (connection_id m);
                     ev_result := Returns v |}]
               /\ heap w' = <[l := set_target_list m v]> (heap w))).
Proof.
  intros Hm Hrun.
  unfold outbound_message_router in Hrun. unfold_run Hrun.
  rewrite Hm in Hrun. fold (connection_only m) in Hrun.
  destruct (connection_only m) eqn:Hc; cbv beta iota zeta in Hrun.
  - finish_run Hrun; since; (split; [reflexivity |]).
    all: try (left; reflexivity).
    all: right; split; [reflexivity |]; do 2 eexists; split; reflexivity.
  - rewrite Hm in Hrun.
    finish_run Hrun; since; (split; [reflexivity |]); left; reflexivity.
Qed.

(** C9. The router changes nothing but the [target_list] of the routed
    message: payload, target and connection identifier of the message are
    as before, every other message of the store is as before, and the
    target list is either untouched or, for a message that carried only a
    connection identifier, set once to the result of the one resolution
    call of the run. *)
Theorem outbound_router_frame {Ext}
    (env : Ext -> Call -> Result * Ext) ctx l inbound (w w' : World Ext) out m :
  heap w !! l = Some m ->
  outbound_message_router env ctx l inbound w = (out, w') ->
  exists m',
    heap w' !! l = Some m'
    /\ payload m' = payload m
    /\ target m' = target m
    /\ connection_id m' = connection_id m
    /\ (forall l', l' <> l -> heap w' !! l' = heap w !! l')
    /\ (m' = m
        \/ (connection_only m = true
            /\ exists mgr v,
                 resolutions (calls_since w w')
                 = [{| ev_call := get_connection_targets mgr (connection_id m);
                       ev_result := Returns v |}]
                 /\ m' = set_target_list m v)).
Proof.
  intros Hm Hrun.
  destruct (outbound_router_writes env ctx l inbound w w' out m Hm Hrun)
    as [_ [Hh | (Hc & mgr & v & Hres & Hh)]].
  - exists m. rewrite Hh. repeat split; auto.
  - exists (set_target_list m v). rewrite Hh. repeat split.
    + apply lookup_insert_eq.
    + intros l' Hl. apply lookup_insert_ne. congruence.
    + right. split; [assumption |]. exists mgr, v. split; auto.
Qed.

Lemma outbound_router_frame_witness :
  exists m',
    heap (snd (outbound_message_router scripted (VObj 1) 1%positive None
                 undeliverable_world)) !! 1%positive = Some m'
    /\ payload m' = VStr "{}"
    /\ target m' = VNone
    /\ connection_id m' = VStr "c1".
Proof.
  destruct (outbound_router_frame scripted (VObj 1) 1%positive None
              undeliverable_world
              (snd (outbound_message_router scripted (VObj 1) 1%positive None
                      undeliverable_world))
              (fst (outbound_message_router scripted (VObj 1) 1%positive None
                      undeliverable_world))
              (message_to VNone VNone (VStr "c1")))
    as (m' & H1 & H2 & H3 & H4 & _).
  - vm_compute. reflexivity.
  - apply surjective_pairing.
  - exists m'. repeat split; assumption.
Defined.

(** C10. Only a [ConnectionManagerError] of the resolution and only an
    [OutboundDeliveryError] of the delivery end in a silent drop: an
    exception of any other class raised by [get_connection_targets] or by
    [deliver] leaves the router as it is, nothing is logged, and after such
    a failed resolution no delivery is attempted; whenever the router
    returns normally although a call raised, the call was the resolution
    with a [ConnectionManagerError] or the delivery with an
    [OutboundDeliveryError]. *)
Theorem outbound_router_propagates_other_errors {Ext}
    (env : Ext -> Call -> Result * Ext) ctx l inbound (w w' : World Ext) out :
  outbound_message_router env ctx l inbound w = (out, w') ->
  (forall mgr cid e,
      In {| ev_call := get_connection_targets mgr cid; ev_result := Raises e |}
        (calls_since w w') ->
      is_ConnectionManagerError e = false ->
      out = Raised e /\ deliveries (calls_since w w') = []
      /\ logged_since w w' = [])
  /\ (forall mgr c r o e,
      In {| ev_call := deliver mgr c r o; ev_result := Raises e |}
        (calls_since w w') ->
      is_OutboundDeliveryError e = false ->
      out = Raised e /\ logged_since w w' = [])
  /\ (forall ev e,
      In ev (calls_since w w') ->
      ev_result ev = Raises e ->
      out = Normal tt ->
      (is_resolution ev = true /\ is_ConnectionManagerError e = true)
      \/ (is_delivery ev = true /\ is_OutboundDeliveryError e = true)).
Proof.
  intros Hrun.
  unfold outbound_message_router in Hrun. unfold_run Hrun.
  finish_run Hrun; since; (split; [| split]).
  all: try (intros ? ? ? Hin He; in_events Hin; try congruence;
            repeat split; reflexivity).
  all: try (intros ? ? ? ? ? Hin He; in_events Hin; try congruence;
            repeat split; reflexivity).
  all: intros ev ? Hin Hr Hout; try discriminate Hout;
    in_events Hin; cbn in Hr; try discriminate Hr;
    injection Hr as <-; auto.
Qed.

Lemma outbound_router_propagates_other_errors_witness :
  fst (outbound_message_router scripted (VObj 1) 1%positive None
         broken_resolution_world)
  = Raised (PyException "StorageError").
Proof.
  refine (proj1 (proj1 (outbound_router_propagates_other_errors scripted (VObj 1)
                          1%positive None broken_resolution_world _ _ _)
                   (VObj 7) (VStr "c1") (PyException "StorageError") _ _)).
  - apply surjective_pairing.
  - vm_compute. right. left. reflexivity.
  - reflexivity.
Defined.

(** ** The inbound router *)


(** C7. One call of the inbound router makes exactly one call into the
    collaborators, [queue_message] on the Dispatcher, with the message as
    it was received, the outbound router as responder and the completion
    callback; the callback, applied to a task and its exception info,
    makes one call, [dispatch_complete] on the Inbound Transport Manager
    with the message, the task and the exception info.  This holds for
    every message, whether or not the warning is logged; the router leaves
    the Conductor and the store as they were. *)
Theorem inbound_router_enqueues_once {Ext}
    (env : Ext -> Call -> Result * Ext) message (w w' : World Ext) out :
  is_None (dispatcher (self w)) = false ->
  inbound_message_router env message w = (out, w') ->
  (exists r,
      calls_since w w'
      = [{| ev_call := queue_message (dispatcher (self w)) message
                         outbound_message_router_ref
                         (dispatch_complete_lambda message);
            ev_result := r |}]
      /\ out = match r with Returns _ => Normal tt | Raises e => Raised e end)
  /\ self w' = self w /\ heap w' = heap w
  /\ (forall task exc (w2 w2' : World Ext) out2,
        is_None (inbound_transport_manager (self w2)) = false ->
        apply_dispatch_complete_lambda env message task exc w2 = (out2, w2') ->
        exists r2,
          calls_since w2 w2'
          = [{| ev_call := dispatch_complete (inbound_transport_manager (self w2))
                             message task exc;
                ev_result := r2 |}]
          /\ out2 = match r2 with Returns v => Normal v | Raises e => Raised e end).
Proof.
  intros Hd Hrun. split; [| split; [| split]].
  - unfold inbound_message_router in Hrun. unfold_run Hrun.
    finish_run Hrun; try congruence; since; eexists; split; reflexivity.
  - unfold inbound_message_router in Hrun. unfold_run Hrun.
    finish_run Hrun; reflexivity.
  - unfold inbound_message_router in Hrun. unfold_run Hrun.
    finish_run Hrun; reflexivity.
  - intros task exc w2 w2' out2 Hi Hcb.
    unfold apply_dispatch_complete_lambda in Hcb. unfold_run Hcb.
    finish_run Hcb; try congruence; since; eexists; split; reflexivity.
Qed.

Lemma inbound_router_enqueues_once_witness :
  calls_since (idle_world [])
    (snd (inbound_message_router scripted ws_message (idle_world [])))
  = [{| ev_call := queue_message (VObj 2) ws_message outbound_message_router_ref
                     (dispatch_complete_lambda ws_message);
        ev_result := Returns VNone |}].
Proof.
  destruct (inbound_router_enqueues_once scripted ws_message (idle_world [])
              (snd (inbound_message_router scripted ws_message (idle_world [])))
              (fst (inbound_message_router scripted ws_message (idle_world []))))
    as [_ _].
  - reflexivity.
  - apply surjective_pairing.
  - vm_compute. reflexivity.
Defined.



(** ** start *)

Lemma extends_refl {Ext} P (w : World Ext) : extends P w w.
Proof.
  exists [], []. rewrite !app_nil_r. repeat split. constructor.
Qed.

Lemma extends_trans {Ext} P (w1 w2 w3 : World Ext) :
  extends P w1 w2 -> extends P w2 w3 -> extends P w1 w3.
Proof.
  intros (evs1 & logs1 & Ht1 & Hl1 & Hf1) (evs2 & logs2 & Ht2 & Hl2 & Hf2).
  exists (evs1 ++ evs2), (logs1 ++ logs2).
  rewrite Ht2, Ht1, Hl2, Hl1, <- !app_assoc. repeat split.
  apply Forall_app; auto.
Qed.

(** Closes [extends P w w'] for a world [w'] built by a run from [w]. *)
Ltac extends_explicit :=
  unfold extends; cbn [trace log];
  eexists; eexists; split;
  [ first [ rewrite <- ?app_assoc; cbn [app]; reflexivity
          | symmetry; apply app_nil_r ]
  | split;
    [ first [ rewrite <- ?app_assoc; cbn [app]; reflexivity
            | symmetry; apply app_nil_r ]
    | repeat constructor ] ].

Lemma bind_inv {Ext A B} (m : M Ext A) (k : A -> M Ext B) w out w' :
  bind m k w = (out, w') ->
  (exists a w1, m w = (Normal a, w1) /\ k a w1 = (out, w'))
  \/ (m w = (Returned, w') /\ out = Returned)
  \/ (exists e, m w = (Raised e, w') /\ out = Raised e).
Proof.
  unfold bind. destruct (m w) as [[a | | e] w1]; intros H.
  - left. eauto.
  - right. left. injection H as <- <-. auto.
  - right. right. injection H as <- <-. eauto.
Qed.

Section StartFacts.

Context {Ext : Type}.
Variable env : Ext -> Call -> Result * Ext.

Lemma show_banner_quiet this ctx did (w w' : World Ext) out :
  show_banner env this ctx did w = (out, w') -> extends quiet w w'.
Proof.
  intros Hrun. unfold show_banner in Hrun. unfold_run Hrun.
  finish_run Hrun; extends_explicit.
Qed.

Lemma create_test_suite_connection_quiet this ctx (w w' : World Ext) out :
  create_test_suite_connection env this ctx w = (out, w') -> extends quiet w w'.
Proof.
  intros Hrun. unfold create_test_suite_connection in Hrun. unfold_run Hrun.
  finish_run Hrun; extends_explicit.
Qed.

Lemma print_invitation_quiet this ctx (w w' : World Ext) out :
  print_invitation env this ctx w = (out, w') -> extends quiet w w'.
Proof.
  intros Hrun. unfold print_invitation in Hrun. unfold_run Hrun.
  finish_run Hrun; extends_explicit.
Qed.

Lemma start_eq :
  start env
  = def (
      let* this := get_self in
      let ctx := context this in
      let* public_did := call env (wallet_config ctx) in
      call env (ledger_config ctx public_did) ;;
      start_transports env this ;;
      start_admin_server env this ctx ;;
      after_startup env this ctx public_did).
Proof. reflexivity. Qed.

Lemma after_startup_quiet this ctx did (w w' : World Ext) out :
  after_startup env this ctx did w = (out, w') -> extends quiet w w'.
Proof.
  unfold after_startup. intros Hrun.
  apply bind_inv in Hrun.
  destruct Hrun as [(a & w1 & H1 & Hrun) | [(H1 & _) | (e & H1 & _)]];
    try (eapply show_banner_quiet; eassumption).
  apply show_banner_quiet in H1.
  apply bind_inv in Hrun.
  destruct Hrun as [(b & w2 & H2 & Hrun) | [(H2 & _) | (e & H2 & _)]];
    try (eapply extends_trans;
         [eassumption | eapply create_test_suite_connection_quiet; eassumption]).
  apply create_test_suite_connection_quiet in H2.
  apply print_invitation_quiet in Hrun.
  eauto using extends_trans.
Qed.

End StartFacts.

(** Brings a run of [start] into its cases: the run stops within the
    start-up proper, or goes on with the statements after it. *)
Ltac start_cases Hrun :=
  rewrite start_eq in Hrun;
  unfold start_transports, start_admin_server in Hrun;
  unfold_run Hrun; finish_run Hrun;
  try match goal with
      | H : after_startup _ _ _ _ _ = _ |- _ =>
          apply after_startup_quiet in H;
          let evs := fresh "evs" in
          let logs := fresh "logs" in
          let Ht := fresh "Ht" in
          let Hl := fresh "Hl" in
          let Hq := fresh "Hq" in
          destruct H as (evs & logs & Ht & Hl & Hq);
          unfold calls_since, logged_since; rewrite ?Ht, ?Hl
      end;
  since.

(** An event of the statements after the start-up is no start-up call. *)
Ltac not_after Hq Hin :=
  rewrite List.Forall_forall in Hq; apply Hq in Hin; discriminate Hin.

Lemma extends_since {Ext} P (w w' : World Ext) :
  extends P w w' ->
  trace w' = trace w ++ calls_since w w'
  /\ log w' = log w ++ logged_since w w'
  /\ Forall (fun ev => P (ev_call ev) = true) (calls_since w w').
Proof.
  intros (evs & logs & Ht & Hl & Hf). unfold calls_since, logged_since.
  rewrite Ht, Hl, !drop_length_app. auto.
Qed.

Lemma calls_since_app {Ext} P Q (w w1 w' : World Ext) :
  extends P w w1 -> extends Q w1 w' ->
  calls_since w w' = calls_since w w1 ++ calls_since w1 w'.
Proof.
  intros H1 H2. apply extends_since in H1, H2.
  destruct H1 as (H1 & _), H2 as (H2 & _).
  unfold calls_since at 1. rewrite H2, H1, <- app_assoc.
  apply drop_length_app.
Qed.

Lemma stopped_by_app e evs1 evs2 :
  stopped_by e evs2 -> stopped_by e (evs1 ++ evs2).
Proof.
  intros [(ev & Hlast & Hev) | (-> & Hlost)].
  - left. exists ev. rewrite last_app, Hlast. auto.
  - right. split; [reflexivity |]. unfold lost_object in *.
    rewrite existsb_app, Hlost. apply orb_true_r.
Qed.

(** Settles how a block of [start] ended, on the explicit calls of a
    case. *)
Ltac stop_cause :=
  first
    [ left; reflexivity
    | right; eexists; (split; [reflexivity |]);
      first
        [ left; eexists; split; reflexivity
        | right; (split; [reflexivity |]);
          repeat match goal with
                 | H : is_None ?v = true |- _ =>
                     is_var v; destruct v; try discriminate H; clear H
                 end;
          unfold lost_object, returned_None; cbn;
          repeat match goal with
                 | |- context [is_None ?v] => destruct (is_None v)
                 end;
          reflexivity ] ].

Section StartOutcome.

Context {Ext : Type}.
Variable env : Ext -> Call -> Result * Ext.

Lemma show_banner_outcome this ctx did (w w' : World Ext) out :
  show_banner env this ctx did w = (out, w') ->
  is_None ctx = false ->
  is_None (inbound_transport_manager this) = false ->
  is_None (outbound_transport_manager this) = false ->
  out = Normal tt
  \/ exists e, out = Raised e /\ stopped_by e (calls_since w w').
Proof.
  intros Hrun Hc Hi Ho. unfold show_banner in Hrun. unfold_run Hrun.
  rewrite ?Hc, ?Hi, ?Ho in Hrun.
  finish_run Hrun; since; stop_cause.
Qed.

Lemma create_test_suite_connection_outcome this ctx (w w' : World Ext) out :
  create_test_suite_connection env this ctx w = (out, w') ->
  is_None ctx = false ->
  out = Normal tt
  \/ exists e, out = Raised e /\ stopped_by e (calls_since w w').
Proof.
  intros Hrun Hc. unfold create_test_suite_connection in Hrun.
  unfold_run Hrun. rewrite ?Hc in Hrun.
  finish_run Hrun; since; stop_cause.
Qed.

Lemma print_invitation_outcome this ctx (w w' : World Ext) out :
  print_invitation env this ctx w = (out, w') ->
  is_None ctx = false ->
  out = Normal tt
  \/ exists e, out = Raised e /\ stopped_by e (calls_since w w').
Proof.
  intros Hrun Hc. unfold print_invitation in Hrun.
  unfold_run Hrun. rewrite ?Hc in Hrun.
  finish_run Hrun; since; stop_cause.
Qed.

(** The statements after the start-up end normally, or with an exception
    that their calls account for. *)
Lemma after_startup_outcome this ctx did (w w' : World Ext) out :
  after_startup env this ctx did w = (out, w') ->
  is_None ctx = false ->
  is_None (inbound_transport_manager this) = false ->
  is_None (outbound_transport_manager this) = false ->
  out = Normal tt
  \/ exists e, out = Raised e /\ stopped_by e (calls_since w w').
Proof.
  unfold after_startup. intros Hrun Hc Hi Ho.
  apply bind_inv in Hrun.
  destruct Hrun as [(a & w1 & H1 & Hrun) | [(H1 & ->) | (e & H1 & ->)]].
  2: { destruct (show_banner_outcome _ _ _ _ _ _ H1 Hc Hi Ho)
         as [H | (e & H & _)]; discriminate H. }
  2: { destruct (show_banner_outcome _ _ _ _ _ _ H1 Hc Hi Ho)
         as [H | (e' & H & Hs)]; [discriminate H |].
       injection H as <-. right. eauto. }
  pose proof (show_banner_quiet _ _ _ _ _ _ _ H1) as Hx1.
  apply bind_inv in Hrun.
  destruct Hrun as [(b & w2 & H2 & Hrun) | [(H2 & ->) | (e & H2 & ->)]].
  2: { destruct (create_test_suite_connection_outcome _ _ _ _ _ H2 Hc)
         as [H | (e & H & _)]; discriminate H. }
  2: { destruct (create_test_suite_connection_outcome _ _ _ _ _ H2 Hc)
         as [H | (e' & H & Hs)]; [discriminate H |].
       injection H as <-. right. exists e. split; [reflexivity |].
       rewrite (calls_since_app _ _ _ _ _ Hx1
                  (create_test_suite_connection_quiet _ _ _ _ _ _ H2)).
       now apply stopped_by_app. }
  pose proof (create_test_suite_connection_quiet _ _ _ _ _ _ H2) as Hx2.
  destruct (print_invitation_outcome _ _ _ _ _ Hrun Hc)
    as [H | (e & H & Hs)]; [auto |].
  right. exists e. split; [assumption |].
  rewrite (calls_since_app _ _ _ _ _ (extends_trans _ _ _ _ Hx1 Hx2)
             (print_invitation_quiet _ _ _ _ _ _ Hrun)).
  now apply stopped_by_app.
Qed.

End StartOutcome.

(** Brings a run of [start] into its cases, as [start_cases] does, and
    keeps how the statements after the start-up ended. *)
Ltac start_cases_outcome Hrun :=
  rewrite start_eq in Hrun;
  unfold start_transports, start_admin_server in Hrun;
  unfold_run Hrun; finish_run Hrun;
  try match goal with
      | H : after_startup _ _ _ _ _ = _ |- _ =>
          let Hout := fresh "Hout" in
          let evs := fresh "evs" in
          let logs := fresh "logs" in
          let Ht := fresh "Ht" in
          let Hl := fresh "Hl" in
          let Hq := fresh "Hq" in
          pose proof (after_startup_outcome _ _ _ _ _ _ _ H) as Hout;
          apply after_startup_quiet in H;
          destruct H as (evs & logs & Ht & Hl & Hq);
          unfold calls_since in Hout; rewrite Ht, drop_length_app in Hout;
          unfold calls_since, logged_since; rewrite ?Ht, ?Hl
      end;
  since.

(** Finds an event in an explicit list of events. *)
Ltac find_event := cbn [In]; repeat first [left; reflexivity | right].

(** C1. In every run of [start]: an exception raised by the start of the
    Inbound Transport Manager is the outcome of [start], and when it is an
    [Exception] it is logged first and nothing else is; the same holds for
    the Outbound Transport Manager.  An [Exception] raised by the start of
    the admin server is logged and is not the reason of what [start] does
    next: on a Conductor with a context the run goes on with the read of
    the server's responder, and [start] returns normally unless one of
    the calls from that read on accounts for the exception it raises;
    without a context the lookup of the binding method on it raises
    [AttributeError]. *)
Theorem start_failures {Ext}
    (env : Ext -> Call -> Result * Ext) (w w' : World Ext) out :
  start env w = (out, w') ->
  (forall mgr e,
      In {| ev_call := InboundTransportManager_start mgr; ev_result := Raises e |}
        (calls_since w w') ->
      out = Raised e
      /\ (is_Exception e = true -> logged_since w w' = [inbound_start_failed e]))
  /\ (forall mgr e,
      In {| ev_call := OutboundTransportManager_start mgr; ev_result := Raises e |}
        (calls_since w w') ->
      out = Raised e
      /\ (is_Exception e = true -> logged_since w w' = [outbound_start_failed e]))
  /\ (forall srv e,
      In {| ev_call := AdminServer_start srv; ev_result := Raises e |}
        (calls_since w w') ->
      is_Exception e = true ->
      In (admin_start_failed e) (logged_since w w')
      /\ exists did r1 r2 r3 rest,
           calls_since w w'
           = [{| ev_call := wallet_config (context (self w));
                 ev_result := Returns did |};
              {| ev_call := ledger_config (context (self w)) did;
                 ev_result := Returns r1 |};
              {| ev_call := InboundTransportManager_start
                              (inbound_transport_manager (self w));
                 ev_result := Returns r2 |};
              {| ev_call := OutboundTransportManager_start
                              (outbound_transport_manager (self w));
                 ev_result := Returns r3 |};
              {| ev_call := AdminServer_start srv; ev_result := Raises e |}]
             ++ rest
           /\ (is_None (context (self w)) = true ->
               rest = [] /\ out = Raised AttributeError)
           /\ (is_None (context (self w)) = false ->
               (exists r rest',
                   rest = {| ev_call := get_attribute srv "responder";
                             ev_result := r |} :: rest')
               /\ (out = Normal tt
                   \/ exists e', out = Raised e' /\ stopped_by e' rest))).
Proof.
  intros Hrun. start_cases_outcome Hrun.
  all: split; [| split].
  all: intros x e' Hin; in_events Hin; try (not_after Hq Hin).
  all: try solve
    [ split; [reflexivity | intros He'; try congruence; reflexivity] ].
  all: intros He'; try congruence.
  all: (split; [left; reflexivity |]).
  all: eexists _, _, _, _, _; (split; [reflexivity |]).
  all: (split; [intros Hn; first [congruence | split; reflexivity] |]).
  all: intros Hn; try congruence; (split; [eexists _, _; reflexivity |]).
  all: try solve [right; eexists; split; [reflexivity |]; left; eexists;
                  split; reflexivity].
  all: repeat match goal with u : unit |- _ => destruct u end.
  all: destruct Hout as [Hout | (cause & Hout & Hs)]; try assumption;
    try discriminate Hout.
  all: first
    [ left; reflexivity
    | injection Hout as ->; right; exists cause; (split; [reflexivity |]);
      apply (stopped_by_app cause [_; _] evs Hs) ].
Qed.

(** ** Runs of start with an admin server *)

Lemma start_failures_witness :
  fst (start scripted inbound_fails_world) = Raised (PyException "OSError")
  /\ fst (start scripted admin_fails_world) = Normal tt
  /\ In (admin_start_failed (PyException "OSError"))
       (logged_since admin_fails_world (snd (start scripted admin_fails_world))).
Proof.
  split.
  { refine (proj1 (proj1 (start_failures scripted inbound_fails_world _ _ _)
                     (VObj 3) (PyException "OSError") _)).
    - apply surjective_pairing.
    - vm_compute. right. right. left. reflexivity. }
  destruct (proj2 (proj2 (start_failures scripted admin_fails_world _ _
                            (surjective_pairing _)))
              (VObj 5) (PyException "OSError"))
    as (Hlog & did & r1 & r2 & r3 & rest & Hcalls & _ & Hgo).
  { vm_compute. do 4 right. left. reflexivity. }
  { reflexivity. }
  split; [| exact Hlog].
  destruct (Hgo eq_refl) as (_ & [Hn | (e' & _ & Hs)]); [exact Hn |].
  exfalso. apply (f_equal (drop 5)) in Hcalls. vm_compute in Hcalls.
  subst rest.
  destruct Hs as [(ev & Hlast & Hev) | (_ & Hlost)].
  - vm_compute in Hlast. injection Hlast as <-. discriminate Hev.
  - vm_compute in Hlost. discriminate Hlost.
Defined.

(** C2, as stated, fails: the start of the admin server raises and the
    responder is bound all the same. *)
Lemma responder_bound_after_failed_start :
  admin_start_raised
    (calls_since admin_fails_world (snd (start scripted admin_fails_world)))
  /\ responder_bound
       (calls_since admin_fails_world (snd (start scripted admin_fails_world))).
Proof.
  split.
  - exists (VObj 5), (PyException "OSError").
    vm_compute. do 4 right. left. reflexivity.
  - exists (VObj 1), (VObj 6), (Returns VNone).
    vm_compute. do 6 right. left. reflexivity.
Qed.

Lemma truthy_not_None v : truthy v = true -> is_None v = false.
Proof. destruct v; intros H; first [discriminate H | reflexivity]. Qed.

(** C2, amended. In a run of [start] of a configured Conductor that has
    an admin server, once the outbound transports have started the admin
    server is started; once its start has returned, and also once it has
    raised an [Exception] (which is logged and swallowed), the responder
    of the admin server is read and what the read returns is bound in the
    context as [BaseResponder]; and [start] binds nothing else: every
    binding call of the run binds, as [BaseResponder], the responder read
    after a start of the admin server that returned or raised an
    [Exception]. *)
Theorem start_binds_responder {Ext}
    (env : Ext -> Call -> Result * Ext) (w w' : World Ext) out :
  is_None (context (self w)) = false ->
  start env w = (out, w') ->
  (truthy (admin_server (self w)) = true ->
   forall mgr r,
     In {| ev_call := OutboundTransportManager_start mgr;
           ev_result := Returns r |} (calls_since w w') ->
     exists res,
       In {| ev_call := AdminServer_start (admin_server (self w));
             ev_result := res |} (calls_since w w'))
  /\ (forall srv res,
      In {| ev_call := AdminServer_start srv; ev_result := res |}
        (calls_since w w') ->
      match res with Returns _ => True | Raises e => is_Exception e = true end ->
      exists r,
        In {| ev_call := get_attribute srv "responder"; ev_result := r |}
          (calls_since w w')
        /\ forall v, r = Returns v ->
             exists res',
               In {| ev_call := bind_instance (context (self w))
                                  (VClass "BaseResponder") v;
                     ev_result := res' |} (calls_since w w'))
  /\ (forall ctx cls v res',
      In {| ev_call := bind_instance ctx cls v; ev_result := res' |}
        (calls_since w w') ->
      ctx = context (self w) /\ cls = VClass "BaseResponder"
      /\ exists res,
           In {| ev_call := AdminServer_start (admin_server (self w));
                 ev_result := res |} (calls_since w w')
           /\ match res with Returns _ => True | Raises e => is_Exception e = true end
           /\ In {| ev_call := get_attribute (admin_server (self w)) "responder";
                    ev_result := Returns v |} (calls_since w w')).
Proof.
  intros Hctx Hrun. start_cases Hrun; try congruence.
  all: (split; [| split]);
    [ intros Hadmin ? ? Hin; in_events Hin; try (not_after Hq Hin);
      try congruence;
      try (match goal with
           | H : truthy ?x = true, H' : is_None ?x = true |- _ =>
               apply truthy_not_None in H; congruence
           end);
      eexists; find_event
    | intros ? ? Hin Hres; in_events Hin; try (not_after Hq Hin);
      try (cbn in Hres; congruence);
      eexists; (split; [find_event |]);
      intros ? Hr; try discriminate Hr; injection Hr as <-;
      eexists; find_event
    | intros ? ? ? ? Hin; in_events Hin; try (not_after Hq Hin);
      (split; [reflexivity |]); (split; [reflexivity |]);
      eexists;
      (split;
       [ find_event | split; [first [exact I | assumption] | find_event] ]) ].
Qed.

Lemma start_binds_responder_witness :
  responder_bound
    (calls_since admin_fails_world (snd (start scripted admin_fails_world))).
Proof.
  destruct (proj1 (proj2 (start_binds_responder scripted admin_fails_world
                            (snd (start scripted admin_fails_world))
                            (fst (start scripted admin_fails_world))
                            eq_refl (surjective_pairing _)))
              (VObj 5) (Raises (PyException "OSError")))
    as (r & Hr & Hb).
  - vm_compute. do 4 right. left. reflexivity.
  - reflexivity.
  - destruct (Hb (VObj 6)) as (res' & Hres').
    + vm_compute in Hr.
      repeat (destruct Hr as [Hr | Hr]; [try discriminate Hr |]);
        [injection Hr as <-; reflexivity | contradiction].
    + exists (VObj 1), (VObj 6), res'. exact Hres'.
Defined.


(** ** setup and the stats collector *)

Lemma wrap_layers_app cls method evs1 evs2 :
  wrap_layers cls method (evs1 ++ evs2)
  = wrap_layers cls method evs1 + wrap_layers cls method evs2.
Proof.
  unfold wrap_layers. rewrite List.filter_app. apply length_app.
Qed.

Lemma wrap_layers_plain cls method evs :
  Forall (fun ev => plain (ev_call ev) = true) evs ->
  wrap_layers cls method evs = 0.
Proof.
  unfold wrap_layers. induction 1 as [| ev evs Hp _ IH]; [reflexivity |].
  cbn [List.filter]. unfold wraps at 1.
  destruct (ev_call ev); try exact IH. discriminate Hp.
Qed.

Section SetupFacts.

Context {Ext : Type}.
Variable env : Ext -> Call -> Result * Ext.

Lemma add_webhook_targets_plain srv urls (w w' : World Ext) out :
  add_webhook_targets env srv urls w = (out, w') -> extends plain w w'.
Proof.
  unfold add_webhook_targets. revert w.
  induction urls as [| url urls IH]; intros w Hrun.
  - injection Hrun as <- <-. apply extends_refl.
  - cbn [for_each] in Hrun. apply bind_inv in Hrun.
    destruct Hrun as [(a & w1 & H1 & Hrun) | [(H1 & _) | (e & H1 & _)]].
    + apply IH in Hrun. eapply extends_trans; [| exact Hrun].
      unfold_run H1. finish_run H1; extends_explicit.
    + unfold_run H1. finish_run H1; extends_explicit.
    + unfold_run H1. finish_run H1; extends_explicit.
Qed.

Lemma setup_admin_api_plain ctx d (w w' : World Ext) out :
  setup_admin_api env ctx d w = (out, w') -> extends plain w w'.
Proof.
  intros Hrun. unfold setup_admin_api in Hrun. unfold_run Hrun.
  finish_run Hrun;
    try match goal with
        | H : add_webhook_targets _ _ _ _ = _ |- _ =>
            apply add_webhook_targets_plain in H;
            eapply extends_trans; [| eapply extends_trans; [exact H |]]
        end;
    extends_explicit.
Qed.

Lemma add_webhook_targets_no_return srv urls (w w' : World Ext) :
  add_webhook_targets env srv urls w <> (Returned, w').
Proof.
  unfold add_webhook_targets. revert w.
  induction urls as [| url urls IH]; intros w Hrun; [discriminate Hrun |].
  cbn [for_each] in Hrun. apply bind_inv in Hrun.
  destruct Hrun as [(a & w1 & H1 & Hrun) | [(H1 & _) | (e & _ & He)]].
  - exact (IH _ Hrun).
  - unfold_run H1. finish_run H1.
  - discriminate He.
Qed.

Lemma setup_admin_api_no_return ctx d (w w' : World Ext) :
  setup_admin_api env ctx d w <> (Returned, w').
Proof.
  intros Hrun. unfold setup_admin_api in Hrun. unfold_run Hrun.
  finish_run Hrun.
  all: eapply add_webhook_targets_no_return; eassumption.
Qed.

Lemma fetch_stats_collector_no_return ctx d (w w' : World Ext) :
  fetch_stats_collector env ctx d w <> (Returned, w').
Proof.
  intros Hrun. unfold fetch_stats_collector in Hrun. unfold_run Hrun.
  finish_run Hrun.
Qed.

(** A run of the collector block that ends normally found no collector
    and called nothing more, or found one and made the three wrap
    calls. *)
Lemma fetch_stats_collector_runs ctx d (w w' : World Ext) :
  fetch_stats_collector env ctx d w = (Normal tt, w') ->
  exists c,
    (truthy c = false
     /\ trace w'
        = trace w ++
          [{| ev_call := inject ctx (VClass "Collector") false;
              ev_result := Returns c |}])
    \/ (truthy c = true
        /\ exists r1 r2 r3,
             trace w'
             = trace w ++
               [{| ev_call := inject ctx (VClass "Collector") false;
                   ev_result := Returns c |};
                {| ev_call := Collector_wrap c VConductor
                                (VTuple [VStr "outbound_message_router"]);
                   ev_result := Returns r1 |};
                {| ev_call := Collector_wrap c d (VStr "handle_message");
                   ev_result := Returns r2 |};
                {| ev_call := Collector_wrap c (VClass "ConnectionManager")
                                (VTuple [VStr "get_connection_targets";
                                         VStr "fetch_did_document";
                                         VStr "find_message_connection"]);
                   ev_result := Returns r3 |}]).
Proof.
  intros Hrun. unfold fetch_stats_collector in Hrun. unfold_run Hrun.
  finish_run Hrun; cbn [trace]; rewrite <- ?app_assoc; cbn [app]; eexists.
  - right. split; [eassumption |]. do 3 eexists. reflexivity.
  - left. split; [eassumption |]. reflexivity.
Qed.

End SetupFacts.

Lemma setup_wraps_once {Ext}
    (env : Ext -> Call -> Result * Ext) (w w1 : World Ext) :
  setup env w = (Normal tt, w1) ->
  exists evs,
    trace w1 = trace w ++ evs
    /\ (collector_found evs ->
        forall method, In method class_level_methods ->
          wrap_layers "ConnectionManager" method evs = 1).
Proof.
  intros Hrun. unfold setup in Hrun. unfold_run Hrun.
  finish_run Hrun.
  2: { exfalso. eapply fetch_stats_collector_no_return. eassumption. }
  2: { exfalso. eapply setup_admin_api_no_return. eassumption. }
  match goal with
  | Ha : setup_admin_api _ _ _ _ = _, Hc : fetch_stats_collector _ _ _ _ = (Normal ?a, _)
    |- _ =>
      destruct a;
      apply setup_admin_api_plain in Ha; destruct Ha as (evs & logs & Ht & _ & Hp);
      apply fetch_stats_collector_runs in Hc;
      destruct Hc as (c & [(Hc & Hct) | (Hc & r1 & r2 & r3 & Hct)])
  end.
  all: cbn [trace] in *; rewrite Hct, Ht, <- !app_assoc.
  all: eexists; split; [reflexivity |].
  - intros (ctx & c' & Hin & Hc'). cbn [app] in Hin. in_events Hin.
    apply in_app_or in Hin. destruct Hin as [Hin | Hin].
    + rewrite List.Forall_forall in Hp. apply Hp in Hin. discriminate Hin.
    + in_events Hin. congruence.
  - intros _ method Hm.
    rewrite !wrap_layers_app, (wrap_layers_plain _ _ evs Hp).
    destruct Hm as [<- | [<- | [<- | []]]]; reflexivity.
Qed.

(** C3, on the code. Every run of [setup] that finds a collector wraps the
    three class-level methods of [ConnectionManager] once more: after two
    such runs each of them is wrapped twice. *)
Theorem setup_wraps_class_methods_again {Ext}
    (env : Ext -> Call -> Result * Ext) (w w1 w2 : World Ext) :
  setup env w = (Normal tt, w1) ->
  setup env w1 = (Normal tt, w2) ->
  collector_found (calls_since w w1) ->
  collector_found (calls_since w1 w2) ->
  forall method, In method class_level_methods ->
    wrap_layers "ConnectionManager" method (calls_since w w2) = 2.
Proof.
  intros H1 H2 Hf1 Hf2 method Hm.
  apply setup_wraps_once in H1. destruct H1 as (evs1 & Ht1 & Hw1).
  apply setup_wraps_once in H2. destruct H2 as (evs2 & Ht2 & Hw2).
  unfold calls_since in *.
  rewrite Ht1, drop_length_app in Hf1.
  rewrite Ht2, drop_length_app in Hf2.
  rewrite Ht2, Ht1, <- app_assoc, drop_length_app, wrap_layers_app.
  rewrite (Hw1 Hf1 method Hm), (Hw2 Hf2 method Hm). reflexivity.
Qed.

Lemma setup_wraps_class_methods_again_witness :
  wrap_layers "ConnectionManager" "get_connection_targets"
    (calls_since fresh_world
       (snd (setup scripted (snd (setup scripted fresh_world))))) = 2.
Proof.
  refine (setup_wraps_class_methods_again scripted fresh_world
            (snd (setup scripted fresh_world))
            (snd (setup scripted (snd (setup scripted fresh_world))))
            _ _ _ _ "get_connection_targets" _).
  - vm_compute. reflexivity.
  - vm_compute. reflexivity.
  - exists (VObj 1), (VObj 9). split; [| reflexivity].
    vm_compute. do 7 right. left. reflexivity.
  - exists (VObj 1), (VObj 9). split; [| reflexivity].
    vm_compute. do 7 right. left. reflexivity.
  - left. reflexivity.
Defined.

(** * Further properties of the routers *)

(** X1. A message that does not carry only a connection identifier (it has a
    target, or a target list, or nothing at all) is handed to the delivery
    call as it is, with the context the router was given, and that is the
    only call; the outcome of the router follows the answer of the
    delivery. *)
Theorem outbound_router_direct_delivery {Ext}
    (env : Ext -> Call -> Result * Ext) ctx l inbound (w w' : World Ext) out m :
  heap w !! l = Some m ->
  connection_only m = false ->
  is_None (outbound_transport_manager (self w)) = false ->
  outbound_message_router env ctx l inbound w = (out, w') ->
  exists r,
    calls_since w w'
    = [{| ev_call := deliver (outbound_transport_manager (self w)) ctx l m;
          ev_result := r |}]
    /\ heap w' = heap w
    /\ out = match r with
             | Returns _ => Normal tt
             | Raises e =>
                 if is_OutboundDeliveryError e then Normal tt else Raised e
             end.
Proof.
  intros Hm Hc Hd Hrun.
  unfold outbound_message_router in Hrun. unfold_run Hrun.
  rewrite Hm in Hrun. fold (connection_only m) in Hrun.
  rewrite Hc in Hrun. cbv beta iota zeta in Hrun.
  rewrite Hm, Hd in Hrun.
  finish_run Hrun; since; eexists; (split; [reflexivity |]);
    (split; [reflexivity |]); cbn;
    rewrite ?Heqb, ?Heqb0; reflexivity.
Qed.

Lemma outbound_router_direct_delivery_witness :
  exists r,
    calls_since targeted_world
      (snd (outbound_message_router scripted (VObj 1) 1%positive None
              targeted_world))
    = [{| ev_call := deliver (VObj 4) (VObj 1) 1%positive
                       (message_to VNone (VList [T1]) (VStr "c1"));
          ev_result := r |}].
Proof.
  destruct (outbound_router_direct_delivery scripted (VObj 1) 1%positive None
              targeted_world
              (snd (outbound_message_router scripted (VObj 1) 1%positive None
                      targeted_world))
              (fst (outbound_message_router scripted (VObj 1) 1%positive None
                      targeted_world))
              (message_to VNone (VList [T1]) (VStr "c1")))
    as (r & Hr & _).
  - vm_compute. reflexivity.
  - reflexivity.
  - reflexivity.
  - apply surjective_pairing.
  - exists r. exact Hr.
Defined.

(** Finds an event in the calls of a scripted run. *)
Ltac among := vm_compute; repeat first [left; reflexivity | right].

(** X2. When the connection of a message resolves, the targets returned
    become the target list of the stored message, the manager that
    resolved them was constructed from the context the router was given,
    and the delivery call, the last call of the run, carries the message
    with these targets. *)
Theorem outbound_router_delivers_resolved {Ext}
    (env : Ext -> Call -> Result * Ext) ctx l inbound (w w' : World Ext) out m
    mgr cid v :
  heap w !! l = Some m ->
  is_None (outbound_transport_manager (self w)) = false ->
  outbound_message_router env ctx l inbound w = (out, w') ->
  In {| ev_call := get_connection_targets mgr cid; ev_result := Returns v |}
    (calls_since w w') ->
  cid = connection_id m
  /\ heap w' = <[l := set_target_list m v]> (heap w)
  /\ exists r,
       calls_since w w'
       = [{| ev_call := ConnectionManager_init ctx; ev_result := Returns mgr |};
          {| ev_call := get_connection_targets mgr cid; ev_result := Returns v |};
          {| ev_call := deliver (outbound_transport_manager (self w)) ctx l
                          (set_target_list m v);
             ev_result := r |}].
Proof.
  intros Hm Hd Hrun Hin.
  unfold outbound_message_router in Hrun. unfold_run Hrun.
  rewrite Hm in Hrun.
  finish_run Hrun; since; in_events Hin; try congruence.
  all: split; [reflexivity |]; split; [reflexivity |]; eexists; reflexivity.
Qed.

Lemma outbound_router_delivers_resolved_witness :
  heap (snd (outbound_message_router scripted (VObj 1) 1%positive None
               undeliverable_world))
  = <[1%positive := set_target_list (message_to VNone VNone (VStr "c1"))
                      (VList [T1; T2])]> (heap undeliverable_world).
Proof.
  refine (proj1 (proj2
            (outbound_router_delivers_resolved scripted (VObj 1) 1%positive None
               undeliverable_world _ _ (message_to VNone VNone (VStr "c1"))
               (VObj 7) (VStr "c1") (VList [T1; T2]) _ _ _ _))).
  - vm_compute. reflexivity.
  - reflexivity.
  - apply surjective_pairing.
  - among.
Defined.

(** X3. An exception raised while the connection manager is constructed is
    outside the handler of the resolution: whatever its class, also a
    [ConnectionManagerError], it is the outcome of the router; nothing is
    logged, nothing more is called and the message is left as it was. *)
Theorem outbound_router_manager_failure {Ext}
    (env : Ext -> Call -> Result * Ext) ctx l inbound (w w' : World Ext) out c e :
  outbound_message_router env ctx l inbound w = (out, w') ->
  In {| ev_call := ConnectionManager_init c; ev_result := Raises e |}
    (calls_since w w') ->
  out = Raised e
  /\ calls_since w w'
     = [{| ev_call := ConnectionManager_init ctx; ev_result := Raises e |}]
  /\ logged_since w w' = []
  /\ heap w' = heap w.
Proof.
  intros Hrun Hin.
  unfold outbound_message_router in Hrun. unfold_run Hrun.
  finish_run Hrun; since; in_events Hin; try congruence.
  all: repeat split; reflexivity.
Qed.

Lemma outbound_router_manager_failure_witness :
  fst (outbound_message_router scripted (VObj 1) 1%positive None
         manager_fails_world)
  = Raised (PyException "StorageError").
Proof.
  refine (proj1
            (outbound_router_manager_failure scripted (VObj 1) 1%positive None
               manager_fails_world _ _ (VObj 1) (PyException "StorageError")
               _ _)).
  - apply surjective_pairing.
  - among.
Defined.

(** X4. Routing before [setup]: while the Conductor has no Dispatcher, the
    inbound router raises [AttributeError] and calls nothing, so the
    message is not enqueued; while it has no Outbound Transport Manager,
    the outbound router makes no delivery call and a message that needs
    no resolution ends in [AttributeError], which is not taken for a
    delivery error. *)
Theorem routers_before_setup {Ext}
    (env : Ext -> Call -> Result * Ext) (w : World Ext) :
  (is_None (dispatcher (self w)) = true ->
   forall message out w',
     inbound_message_router env message w = (out, w') ->
     out = Raised AttributeError /\ calls_since w w' = [])
  /\ (is_None (outbound_transport_manager (self w)) = true ->
      forall ctx l inbound out w',
        outbound_message_router env ctx l inbound w = (out, w') ->
        deliveries (calls_since w w') = []
        /\ forall m, heap w !! l = Some m -> connection_only m = false ->
             out = Raised AttributeError /\ calls_since w w' = []).
Proof.
  split.
  - intros Hd message out w' Hrun.
    unfold inbound_message_router in Hrun. unfold_run Hrun.
    finish_run Hrun; try congruence; since; split; reflexivity.
  - intros Hd ctx l inbound out w' Hrun.
    unfold outbound_message_router in Hrun. unfold_run Hrun.
    finish_run Hrun; try congruence; since; (split; [reflexivity |]).
    all: intros m Hm Hc; unfold connection_only in Hc; simplify_eq;
      try congruence; split; reflexivity.
Qed.

Lemma routers_before_setup_witness :
  fst (inbound_message_router scripted ws_message unconfigured_world)
  = Raised AttributeError.
Proof.
  refine (proj1 (proj1 (routers_before_setup scripted unconfigured_world)
                   _ ws_message _ _ _)).
  - reflexivity.
  - apply surjective_pairing.
Defined.

(** * The blocks of setup *)

Section SetupBlocks.

Context {Ext : Type}.
Variable env : Ext -> Call -> Result * Ext.

(** The loop over the webhook targets: it touches nothing but the trace,
    every call it makes is a registration on [srv], a registration that
    raises ends it with that exception, and when it ends normally it has
    registered the targets one by one, in order. *)
Lemma add_webhook_targets_runs srv urls (w w' : World Ext) out :
  add_webhook_targets env srv urls w = (out, w') ->
  self w' = self w /\ heap w' = heap w /\ log w' = log w
  /\ exists evs,
       trace w' = trace w ++ evs
       /\ webhook_registrations evs = evs
       /\ Forall (fun ev => is_admin_construction (ev_call ev) = true) evs
       /\ (forall ev e, In ev evs -> ev_result ev = Raises e -> out = Raised e)
       /\ (out = Normal tt ->
           map ev_call evs = map (add_webhook_target srv) urls).
Proof.
  unfold add_webhook_targets. revert w.
  induction urls as [| url urls IH]; intros w Hrun.
  - injection Hrun as <- <-. repeat split. exists [].
    rewrite app_nil_r. repeat split; [constructor | contradiction].
  - cbn [for_each] in Hrun. apply bind_inv in Hrun.
    destruct Hrun as [(a & w1 & H1 & Hrun) | [(H1 & ->) | (e & H1 & ->)]].
    + apply IH in Hrun.
      destruct Hrun as (Hs & Hh & Hl & evs & Ht & Hf & Hp & Hr & Hn).
      unfold_run H1. finish_run H1.
      cbn [self heap log trace] in *.
      repeat split; try assumption.
      eexists (_ :: evs). rewrite Ht, <- app_assoc. split; [reflexivity |].
      split; [| split; [| split]].
      * unfold webhook_registrations in *. cbn. now rewrite Hf.
      * constructor; [reflexivity | assumption].
      * intros ev e' [<- | Hin] He; [discriminate He | eauto].
      * intros Ho. cbn. now rewrite Hn.
    + unfold_run H1. finish_run H1.
    + unfold_run H1. finish_run H1; cbn [self heap log trace];
        repeat split; eexists;
        (split; [first [reflexivity | symmetry; apply app_nil_r] |]);
        (split; [reflexivity |]);
        (split; [repeat constructor |]);
        (split; [| discriminate]);
        intros ev e' Hin He; in_events Hin; cbn in He; congruence.
Qed.


(** Brings a run of the admin block into its cases; the loop over the
    webhook targets is described by its facts. *)
Ltac admin_cases Hrun :=
  unfold setup_admin_api in Hrun; unfold_run Hrun; finish_run Hrun;
  try match goal with
      | H : add_webhook_targets _ _ _ _ = (Returned, _) |- _ =>
          exfalso; exact (add_webhook_targets_no_return _ _ _ _ _ H)
      end;
  try match goal with
      | H : add_webhook_targets _ _ _ _ = _ |- _ =>
          apply add_webhook_targets_runs in H;
          let evs := fresh "evs" in
          let Hs := fresh "Hs" in
          let Hh := fresh "Hh" in
          let Hl := fresh "Hl" in
          let Ht := fresh "Ht" in
          let Hf := fresh "Hf" in
          let Hp := fresh "Hp" in
          let Hr := fresh "Hr" in
          let Hn := fresh "Hn" in
          destruct H as (Hs & Hh & Hl & evs & Ht & Hf & Hp & Hr & Hn);
          cbn [self heap log trace] in Hs, Hh, Hl, Ht
      end.

Lemma setup_admin_api_frame ctx d (w w' : World Ext) out :
  setup_admin_api env ctx d w = (out, w') ->
  heap w' = heap w /\ same_components (self w) (self w')
  /\ out <> Returned /\ (out = Normal tt -> is_None ctx = false).
Proof.
  intros Hrun. admin_cases Hrun.
  all: cbn [self heap log trace]; rewrite ?Hh, ?Hs; cbn [self heap].
  all: unfold same_components; cbn; repeat split; congruence.
Qed.


(** Normalises [calls_since] and [logged_since] in the goal, after the
    trace and the log of the loop over the webhook targets are put in. *)
Ltac since_loop Ht Hl :=
  unfold calls_since, logged_since in *; cbn [trace log] in *;
  rewrite ?Ht, ?Hl in *; since.

(** Goes through [H : In ev (e1 :: ... :: evs ++ [en])]. *)
Ltac in_events_loop H :=
  in_events H;
  try (apply in_app_or in H; destruct H as [H | H]; [| in_events H]).

Lemma setup_admin_api_extends ctx d (w w' : World Ext) out :
  setup_admin_api env ctx d w = (out, w') -> extends is_admin_api_call w w'.
Proof.
  intros Hrun. admin_cases Hrun.
  all: try (unfold extends; cbn [trace log]; rewrite Ht, Hl;
            eexists; eexists;
            split; [rewrite <- ?app_assoc; reflexivity |];
            split; [first [rewrite <- ?app_assoc; cbn [app]; reflexivity
                          | symmetry; apply app_nil_r] |];
            repeat (apply Forall_app; split); repeat constructor;
            eapply Forall_impl; [exact Hp |];
            cbn; intros ev Hev; unfold is_admin_api_call;
            rewrite Hev; apply orb_true_r).
  all: extends_explicit.
Qed.

(** With the admin API disabled the block reads the setting and is
    done. *)
Lemma setup_admin_api_disabled ctx d (w w' : World Ext) out c v :
  setup_admin_api env ctx d w = (out, w') ->
  In {| ev_call := settings_get c "admin.enabled" VNone; ev_result := Returns v |}
    (calls_since w w') ->
  truthy v = false ->
  calls_since w w'
  = [{| ev_call := settings_get ctx "admin.enabled" VNone;
        ev_result := Returns v |}]
  /\ self w' = self w /\ logged_since w w' = [] /\ out = Normal tt.
Proof.
  intros Hrun Hin Hv. admin_cases Hrun.
  all: since_loop Ht Hl; in_events_loop Hin; try congruence.
  all: try (rewrite List.Forall_forall in Hp; apply Hp in Hin;
            vm_compute in Hin; discriminate Hin).
  all: repeat split; reflexivity.
Qed.

(** An event of the loop over the webhook targets is a registration. *)
Ltac not_in_loop Hf Hin :=
  unfold webhook_registrations in Hf; rewrite <- Hf in Hin;
  apply List.filter_In in Hin; destruct Hin as [_ Hin];
  discriminate Hin.

(** Whatever raises after the admin API was found enabled is logged (when
    it is an [Exception]) and raised again. *)
Lemma setup_admin_api_failure ctx d (w w' : World Ext) out ev e :
  setup_admin_api env ctx d w = (out, w') ->
  In ev (calls_since w w') ->
  ev_result ev = Raises e ->
  is_admin_construction (ev_call ev) = true ->
  out = Raised e
  /\ (is_Exception e = true -> logged_since w w' = [admin_register_failed e]).
Proof.
  intros Hrun Hin Hres Hc. admin_cases Hrun.
  all: since_loop Ht Hl; in_events_loop Hin; cbn in Hres, Hc;
    try discriminate Hres; try discriminate Hc.
  all: try (specialize (Hr _ _ Hin Hres)); simplify_eq.
  all: split; [reflexivity | intros He; try congruence; reflexivity].
Qed.

(** A true value of [admin.webhook_urls] that cannot be iterated over
    ends the block with a [TypeError], logged like any other failure, and
    nothing is registered. *)
Lemma setup_admin_api_bad_urls ctx d (w w' : World Ext) out c urls :
  setup_admin_api env ctx d w = (out, w') ->
  In {| ev_call := settings_get c "admin.webhook_urls" VNone;
        ev_result := Returns urls |} (calls_since w w') ->
  truthy urls = true ->
  elements urls = None ->
  out = Raised TypeError
  /\ logged_since w w' = [admin_register_failed TypeError]
  /\ webhook_registrations (calls_since w w') = [].
Proof.
  intros Hrun Hin Hu He. admin_cases Hrun.
  all: since_loop Ht Hl; in_events_loop Hin; try congruence.
  all: try (not_in_loop Hf Hin).
  all: repeat split; reflexivity.
Qed.

(** What a run of the block that constructs the admin server and ends
    normally has done. *)
Lemma setup_admin_api_success ctx d (w w' : World Ext) h p c r t srv :
  setup_admin_api env ctx d w = (Normal tt, w') ->
  In {| ev_call := AdminServer_init h p c r t; ev_result := Returns srv |}
    (calls_since w w') ->
  c = ctx /\ r = outbound_message_router_ref /\ t = put_task_ref d
  /\ self w' = set_admin_server (self w) srv
  /\ logged_since w w' = []
  /\ exists urls us res,
       In {| ev_call := settings_get ctx "admin.webhook_urls" VNone;
             ev_result := Returns urls |} (calls_since w w')
       /\ (if truthy urls then elements urls = Some us else us = [])
       /\ map ev_call (webhook_registrations (calls_since w w'))
          = map (add_webhook_target srv) us
       /\ last (calls_since w w')
          = Some {| ev_call := bind_instance ctx (VClass "BaseAdminServer") srv;
                    ev_result := Returns res |}.
Proof.
  intros Hrun Hin. admin_cases Hrun.
  all: since_loop Ht Hl; in_events_loop Hin.
  all: try (not_in_loop Hf Hin).
  - repeat (split; [first [reflexivity | assumption] |]).
    exists v3, l, v4. split; [find_event |].
    rewrite Heqb2. split; [assumption |]. split.
    + unfold webhook_registrations in *.
      cbn [List.filter is_webhook_registration ev_call].
      rewrite List.filter_app, Hf. cbn. rewrite app_nil_r.
      apply Hn. now destruct a.
    + rewrite !app_comm_cons. apply last_snoc.
  - repeat (split; [first [reflexivity | assumption] |]).
    exists v3, [], v4. split; [find_event |].
    rewrite Heqb2. repeat split.
Qed.

(** The collector block touches nothing but the trace; it wraps only
    with a collector that the context returned and that is true, and only
    the outbound router of the Conductor, [handle_message] of the
    Dispatcher and the three methods of the class [ConnectionManager]. *)
Lemma fetch_stats_collector_facts ctx d (w w' : World Ext) out :
  fetch_stats_collector env ctx d w = (out, w') ->
  self w' = self w /\ heap w' = heap w /\ log w' = log w
  /\ out <> Returned
  /\ extends is_stats_call w w'
  /\ forall c obj names r,
       In {| ev_call := Collector_wrap c obj names; ev_result := r |}
         (calls_since w w') ->
       truthy c = true
       /\ In {| ev_call := inject ctx (VClass "Collector") false;
                ev_result := Returns c |} (calls_since w w')
       /\ In (obj, names) (wrap_targets d).
Proof.
  intros Hrun. unfold fetch_stats_collector in Hrun. unfold_run Hrun.
  finish_run Hrun.
  all: repeat (split; [first [reflexivity | discriminate | extends_explicit] |]).
  all: since; intros c0 obj names r0 Hin; in_events Hin.
  all: (split; [assumption |]); (split; [find_event |]);
    unfold wrap_targets; find_event.
Qed.

(** The runs of [setup]: it stops while the components are wired, or it
    wires them and runs the admin block, which raises or is followed by
    the collector block, which raises or is followed by the assignment of
    the context. *)
Lemma setup_runs (w w' : World Ext) out :
  setup env w = (out, w') ->
  (exists e,
      out = Raised e /\ self_but_wiring (self w) (self w')
      /\ heap w' = heap w /\ log w' = log w
      /\ extends is_wiring_call w w')
  \/ exists ctx d itm otm r1 r2 wk w0 oa,
       trace wk = trace w ++ wiring (context_builder (self w)) ctx d itm otm r1 r2
       /\ self wk
          = set_outbound_transport_manager
              (set_inbound_transport_manager (set_dispatcher (self w) d) itm) otm
       /\ heap wk = heap w /\ log wk = log w
       /\ is_None d = false /\ is_None itm = false /\ is_None otm = false
       /\ setup_admin_api env ctx d wk = (oa, w0)
       /\ ((exists e, oa = Raised e /\ out = Raised e /\ w' = w0)
           \/ (oa = Normal tt
               /\ exists oc w2,
                    fetch_stats_collector env ctx d w0 = (oc, w2)
                    /\ ((exists e, oc = Raised e /\ out = Raised e /\ w' = w2)
                        \/ (oc = Normal tt /\ out = Normal tt
                            /\ self w' = set_context (self w2) ctx
                            /\ heap w' = heap w2 /\ log w' = log w2
                            /\ trace w' = trace w2)))).
Proof.
  intros Hrun. unfold setup in Hrun. unfold_run Hrun.
  finish_run Hrun.
  all: try match goal with
           | H : fetch_stats_collector _ _ _ _ = (Returned, _) |- _ =>
               exfalso; exact (fetch_stats_collector_no_return _ _ _ _ _ H)
           | H : setup_admin_api _ _ _ _ = (Returned, _) |- _ =>
               exfalso; exact (setup_admin_api_no_return _ _ _ _ _ H)
           end.
  all: try (left; eexists; split; [reflexivity |];
            split; [unfold self_but_wiring; cbn; auto |];
            split; [reflexivity |]; split; [reflexivity |];
            extends_explicit).
  all: right;
    match goal with
    | H : setup_admin_api _ ?ctx ?d ?wk = (?oa, ?w0) |- _ =>
        exists ctx, d; do 4 eexists; exists wk, w0, oa
    end;
    cbn [trace self heap log];
    (split; [rewrite <- ?app_assoc; reflexivity |]);
    repeat (split; [first [reflexivity | assumption] |]).
  all: repeat match goal with a : unit |- _ => destruct a end.
  - right. split; [reflexivity |]. do 2 eexists. split; [eassumption |].
    right. repeat split.
  - right. split; [reflexivity |]. do 2 eexists. split; [eassumption |].
    left. eexists. repeat split.
  - left. eexists. repeat split.
Qed.

(** The same runs, with the calls and the log records of the whole run
    put together from those of the blocks. *)
Lemma setup_shape (w w' : World Ext) out :
  setup env w = (out, w') ->
  (exists e,
      out = Raised e /\ self_but_wiring (self w) (self w')
      /\ heap w' = heap w /\ logged_since w w' = []
      /\ Forall (fun ev => is_wiring_call (ev_call ev) = true) (calls_since w w'))
  \/ exists ctx d itm otm r1 r2 wk w0 oa,
       self wk
       = set_outbound_transport_manager
           (set_inbound_transport_manager (set_dispatcher (self w) d) itm) otm
       /\ is_None d = false /\ is_None itm = false /\ is_None otm = false
       /\ setup_admin_api env ctx d wk = (oa, w0)
       /\ heap w' = heap w
       /\ logged_since w w' = logged_since wk w0
       /\ ((exists e,
              oa = Raised e /\ out = Raised e /\ self w' = self w0
              /\ calls_since w w'
                 = wiring (context_builder (self w)) ctx d itm otm r1 r2
                   ++ calls_since wk w0)
           \/ (oa = Normal tt
               /\ exists oc w2,
                    fetch_stats_collector env ctx d w0 = (oc, w2)
                    /\ calls_since w w'
                       = wiring (context_builder (self w)) ctx d itm otm r1 r2
                         ++ calls_since wk w0 ++ calls_since w0 w2
                    /\ ((exists e, oc = Raised e /\ out = Raised e
                                   /\ self w' = self w0)
                        \/ (oc = Normal tt /\ out = Normal tt
                            /\ self w' = set_context (self w0) ctx)))).
Proof.
  intros Hrun. apply setup_runs in Hrun.
  destruct Hrun as [(e & -> & Hs & Hh & Hl & Hx) | Hrun].
  - left. exists e. apply extends_since in Hx. destruct Hx as (_ & Hl' & Hf).
    split; [reflexivity |]. split; [assumption |]. split; [assumption |].
    split; [| assumption]. unfold logged_since. rewrite Hl.
    apply drop_length_self.
  - right.
    destruct Hrun as (ctx & d & itm & otm & r1 & r2 & wk & w0 & oa
                      & Htk & Hsk & Hhk & Hlk & Hd & Hi & Ho & Ha & Hrest).
    exists ctx, d, itm, otm, r1, r2, wk, w0, oa.
    pose proof (setup_admin_api_frame _ _ _ _ _ Ha) as (Hha & _).
    pose proof (setup_admin_api_extends _ _ _ _ _ Ha) as Hxa.
    apply extends_since in Hxa. destruct Hxa as (Hta & Hla & _).
    repeat (split; [assumption |]).
    destruct Hrest as [(e & -> & -> & ->) | (-> & oc & w2 & Hc & Hrest)].
    + split; [congruence |]. split.
      { unfold logged_since at 1. rewrite Hla, Hlk. apply drop_length_app. }
      left. exists e. repeat split.
      unfold calls_since at 1. rewrite Hta, Htk, <- app_assoc.
      apply drop_length_app.
    + pose proof (fetch_stats_collector_facts _ _ _ _ _ Hc)
        as (Hsc & Hhc & Hlc & _ & Hxc & _).
      apply extends_since in Hxc. destruct Hxc as (Htc & _ & _).
      assert (Hcalls : forall w3 : World Ext,
                 trace w3 = trace w2 ->
                 calls_since w w3
                 = wiring (context_builder (self w)) ctx d itm otm r1 r2
                   ++ calls_since wk w0 ++ calls_since w0 w2).
      { intros w3 H3. unfold calls_since at 1.
        rewrite H3, Htc, Hta, Htk, <- !app_assoc. apply drop_length_app. }
      assert (Hlogs : forall w3 : World Ext,
                 log w3 = log w2 -> logged_since w w3 = logged_since wk w0).
      { intros w3 H3. unfold logged_since at 1.
        rewrite H3, Hlc, Hla, Hlk. apply drop_length_app. }
      destruct Hrest as [(e & -> & -> & ->)
                        | (-> & -> & Hs' & Hh' & Hl' & Ht')].
      * split; [congruence |]. split; [now apply Hlogs |].
        right. split; [reflexivity |]. exists (Raised e), w2.
        split; [assumption |]. split; [now apply Hcalls |].
        left. exists e. auto.
      * split; [congruence |]. split; [now apply Hlogs |].
        right. split; [reflexivity |]. exists (Normal tt), w2.
        split; [assumption |]. split; [now apply Hcalls |].
        right. rewrite Hs', Hsc. auto.
Qed.

End SetupBlocks.

(** * Further properties of setup *)

(** X5. A run of [setup] that ends normally has built the context, the
    Dispatcher and the two transport managers, in this order, with the
    inbound router as the callback of the Inbound Transport Manager and
    [run_task] of the Dispatcher as the runner of the Outbound Transport
    Manager, and the Conductor holds what these calls returned; none of
    the four is [None]. *)
Theorem setup_configures {Ext}
    (env : Ext -> Call -> Result * Ext) (w w' : World Ext) :
  setup env w = (Normal tt, w') ->
  exists r1 r2 rest,
    calls_since w w'
    = wiring (context_builder (self w)) (context (self w'))
        (dispatcher (self w')) (inbound_transport_manager (self w'))
        (outbound_transport_manager (self w')) r1 r2 ++ rest
    /\ context_builder (self w') = context_builder (self w)
    /\ is_None (context (self w')) = false
    /\ is_None (dispatcher (self w')) = false
    /\ is_None (inbound_transport_manager (self w')) = false
    /\ is_None (outbound_transport_manager (self w')) = false
    /\ heap w' = heap w.
Proof.
  intros Hrun. apply setup_shape in Hrun.
  destruct Hrun as [(e & He & _) | Hrun]; [discriminate He |].
  destruct Hrun as (ctx & d & itm & otm & r1 & r2 & wk & w0 & oa
                    & Hsk & Hd & Hi & Ho & Ha & Hh & _ & Hrest).
  destruct Hrest as [(e & _ & He & _) | (-> & oc & w2 & Hc & Hcalls & Hrest)];
    [discriminate He |].
  destruct Hrest as [(e & _ & He & _) | (_ & _ & Hs)]; [discriminate He |].
  pose proof (setup_admin_api_frame _ _ _ _ _ _ Ha)
    as (_ & (H1 & H2 & H3 & H4 & H5) & _ & Hctx).
  rewrite Hsk in H1, H2, H3, H4, H5. cbn in H1, H2, H3, H4, H5.
  specialize (Hctx eq_refl).
  exists r1, r2. eexists. rewrite Hs. cbn. rewrite H2, H3, H4, H5.
  split; [exact Hcalls |]. repeat split; assumption.
Qed.

Lemma setup_configures_witness :
  is_None (dispatcher (self (snd (setup scripted fresh_world)))) = false.
Proof.
  destruct (setup_configures scripted fresh_world
              (snd (setup scripted fresh_world)))
    as (r1 & r2 & rest & _ & _ & _ & Hd & _).
  - vm_compute. reflexivity.
  - exact Hd.
Defined.

(** X6. The context is the last thing [setup] assigns: when [setup] raises,
    the Conductor has the context it had before, and the store of
    messages is as before. *)
Theorem setup_failure_keeps_context {Ext}
    (env : Ext -> Call -> Result * Ext) (w w' : World Ext) e :
  setup env w = (Raised e, w') ->
  context (self w') = context (self w) /\ heap w' = heap w.
Proof.
  intros Hrun. apply setup_shape in Hrun.
  destruct Hrun as [(e' & _ & (Hc & _) & Hh & _) | Hrun]; [auto |].
  destruct Hrun as (ctx & d & itm & otm & r1 & r2 & wk & w0 & oa
                    & Hsk & Hd & Hi & Ho & Ha & Hh & _ & Hrest).
  pose proof (setup_admin_api_frame _ _ _ _ _ _ Ha) as (_ & (H1 & _) & _).
  rewrite Hsk in H1. cbn in H1. split; [| assumption].
  destruct Hrest as [(e' & _ & _ & -> & _) | (_ & oc & w2 & _ & _ & Hrest)];
    [assumption |].
  destruct Hrest as [(e' & _ & _ & ->) | (_ & He & _)];
    [assumption | discriminate He].
Qed.

Lemma setup_failure_keeps_context_witness :
  context (self (snd (setup scripted admin_init_fails_world)))
  = context (self admin_init_fails_world).
Proof.
  refine (proj1 (setup_failure_keeps_context scripted admin_init_fails_world _
                   (PyException "OSError") _)).
  vm_compute. reflexivity.
Defined.

Lemma in_wiring b ctx d itm otm r1 r2 ev :
  In ev (wiring b ctx d itm otm r1 r2) -> is_wiring_call (ev_call ev) = true.
Proof.
  unfold wiring. intros Hin.
  repeat (destruct Hin as [<- | Hin]; [reflexivity |]). contradiction.
Qed.

Lemma wiring_not_admin c :
  is_wiring_call c = true -> is_admin_api_call c = false.
Proof. destruct c; try discriminate; reflexivity. Qed.

Lemma stats_not_admin c :
  is_stats_call c = true -> is_admin_api_call c = false.
Proof. destruct c; try discriminate; reflexivity. Qed.

Lemma admin_not_stats c :
  is_admin_api_call c = true -> is_stats_call c = false.
Proof. destruct c; try discriminate; reflexivity. Qed.

Lemma wiring_not_stats c :
  is_wiring_call c = true -> is_stats_call c = false.
Proof. destruct c; try discriminate; reflexivity. Qed.

Lemma admin_construction_api c :
  is_admin_construction c = true -> is_admin_api_call c = true.
Proof. unfold is_admin_api_call. intros ->. apply orb_true_r. Qed.

Lemma webhook_registrations_none P evs :
  (forall c, P c = true -> is_admin_api_call c = false) ->
  Forall (fun ev => P (ev_call ev) = true) evs ->
  webhook_registrations evs = [].
Proof.
  intros HP. unfold webhook_registrations.
  induction 1 as [| ev evs Hev _ IH]; [reflexivity |].
  cbn [List.filter]. rewrite IH. apply HP in Hev.
  unfold is_webhook_registration. destruct (ev_call ev); try reflexivity.
  discriminate Hev.
Qed.

(** Where an event of a run of [setup] that is a call of the admin block
    comes from. *)
Lemma admin_event_inv {Ext} (env : Ext -> Call -> Result * Ext)
    (w w' : World Ext) out ev :
  setup env w = (out, w') ->
  In ev (calls_since w w') ->
  is_admin_api_call (ev_call ev) = true ->
  exists ctx d wk w0 oa,
    setup_admin_api env ctx d wk = (oa, w0)
    /\ In ev (calls_since wk w0)
    /\ self wk
       = set_outbound_transport_manager
           (set_inbound_transport_manager
              (set_dispatcher (self w) d) (inbound_transport_manager (self wk)))
           (outbound_transport_manager (self wk))
    /\ logged_since w w' = logged_since wk w0
    /\ webhook_registrations (calls_since w w')
       = webhook_registrations (calls_since wk w0)
    /\ (forall ev', In ev' (calls_since wk w0) -> In ev' (calls_since w w'))
    /\ (forall ev', In ev' (calls_since w w') ->
         is_admin_api_call (ev_call ev') = true -> In ev' (calls_since wk w0))
    /\ ((exists e, oa = Raised e /\ out = Raised e /\ self w' = self w0)
        \/ (oa = Normal tt
            /\ ((exists e, out = Raised e /\ self w' = self w0)
                \/ (out = Normal tt /\ self w' = set_context (self w0) ctx)))).
Proof.
  intros Hrun Hin Hev. apply setup_shape in Hrun.
  destruct Hrun as [(e & _ & _ & _ & _ & Hf) | Hrun].
  { rewrite List.Forall_forall in Hf. apply Hf, wiring_not_admin in Hin.
    congruence. }
  destruct Hrun as (ctx & d & itm & otm & r1 & r2 & wk & w0 & oa
                    & Hsk & Hd & Hi & Ho & Ha & Hh & Hl & Hrest).
  exists ctx, d, wk, w0, oa.
  assert (Hsk' : self wk
                 = set_outbound_transport_manager
                     (set_inbound_transport_manager
                        (set_dispatcher (self w) d)
                        (inbound_transport_manager (self wk)))
                     (outbound_transport_manager (self wk))).
  { rewrite Hsk at 1. rewrite Hsk. reflexivity. }
  assert (Hw : webhook_registrations
                 (wiring (context_builder (self w)) ctx d itm otm r1 r2) = [])
    by reflexivity.
  destruct Hrest as [(e & -> & -> & Hs & Hc)
                    | (-> & oc & w2 & Hcr & Hc & Hrest)].
  - rewrite Hc in Hin. apply in_app_or in Hin. destruct Hin as [Hin | Hin].
    { apply in_wiring, wiring_not_admin in Hin. congruence. }
    repeat (split; [assumption |]).
    split; [| split; [| split]].
    + rewrite Hc. unfold webhook_registrations in *.
      now rewrite List.filter_app, Hw.
    + intros ev' Hin'. rewrite Hc. apply in_or_app. auto.
    + intros ev' Hin' Hev'. rewrite Hc in Hin'. apply in_app_or in Hin'.
      destruct Hin' as [Hin' | Hin']; [| assumption].
      apply in_wiring, wiring_not_admin in Hin'. congruence.
    + left. eauto.
  - pose proof (fetch_stats_collector_facts _ _ _ _ _ _ Hcr)
      as (_ & _ & _ & _ & Hxc & _).
    apply extends_since in Hxc. destruct Hxc as (_ & _ & Hfc).
    rewrite Hc in Hin. apply in_app_or in Hin. destruct Hin as [Hin | Hin].
    { apply in_wiring, wiring_not_admin in Hin. congruence. }
    apply in_app_or in Hin. destruct Hin as [Hin | Hin].
    2: { rewrite List.Forall_forall in Hfc.
         apply Hfc, stats_not_admin in Hin. congruence. }
    repeat (split; [assumption |]).
    split; [| split; [| split]].
    + rewrite Hc. unfold webhook_registrations in *.
      rewrite !List.filter_app, Hw.
      fold (webhook_registrations (calls_since w0 w2)).
      rewrite (webhook_registrations_none is_stats_call _ stats_not_admin Hfc).
      cbn. apply app_nil_r.
    + intros ev' Hin'. rewrite Hc. apply in_or_app. right.
      apply in_or_app. auto.
    + intros ev' Hin' Hev'. rewrite Hc in Hin'. apply in_app_or in Hin'.
      destruct Hin' as [Hin' | Hin'].
      { apply in_wiring, wiring_not_admin in Hin'. congruence. }
      apply in_app_or in Hin'. destruct Hin' as [Hin' | Hin']; [assumption |].
      rewrite List.Forall_forall in Hfc.
      apply Hfc, stats_not_admin in Hin'. congruence.
    + right. split; [reflexivity |].
      destruct Hrest as [(e & _ & -> & Hs) | (_ & -> & Hs)]; eauto.
Qed.

(** X7. With the admin API disabled [setup] constructs no admin server: the
    Conductor keeps the admin server it had, nothing is registered or
    bound, and nothing is logged. *)
Theorem setup_admin_disabled {Ext}
    (env : Ext -> Call -> Result * Ext) (w w' : World Ext) out c v :
  setup env w = (out, w') ->
  In {| ev_call := settings_get c "admin.enabled" VNone; ev_result := Returns v |}
    (calls_since w w') ->
  truthy v = false ->
  admin_server (self w') = admin_server (self w)
  /\ logged_since w w' = []
  /\ forall ev, In ev (calls_since w w') ->
       is_admin_construction (ev_call ev) = false.
Proof.
  intros Hrun Hin Hv.
  destruct (admin_event_inv env w w' out _ Hrun Hin eq_refl)
    as (ctx & d & wk & w0 & oa & Ha & Hin' & Hsk & Hl & _ & _ & Hall & Hrest).
  destruct (setup_admin_api_disabled env _ _ _ _ _ _ _ Ha Hin' Hv)
    as (Hcalls & Hs & Hlog & ->).
  split; [| split].
  - destruct Hrest as [(e & He & _) | (_ & [(e & _ & ->) | (_ & ->)])];
      [discriminate He | |]; rewrite ?Hs, Hsk; reflexivity.
  - congruence.
  - intros ev Hev.
    destruct (is_admin_construction (ev_call ev)) eqn:Hc; [| reflexivity].
    apply Hall in Hev; [| now apply admin_construction_api].
    rewrite Hcalls in Hev. destruct Hev as [<- | []]. discriminate Hc.
Qed.

Lemma setup_admin_disabled_witness :
  logged_since fresh_world (snd (setup scripted fresh_world)) = [].
Proof.
  refine (proj1 (proj2
            (setup_admin_disabled scripted fresh_world _ _ (VObj 1)
               (VBool false) _ _ _))).
  - apply surjective_pairing.
  - among.
  - reflexivity.
Defined.

(** X8. When [setup] ends normally and has constructed an admin server, the
    server was given the context, the outbound router and [put_task] of
    the Dispatcher, the Conductor holds it, it is bound in the context as
    [BaseAdminServer], and the webhook targets registered on it are the
    elements of the setting [admin.webhook_urls], one registration each,
    in order (none when the setting is false). *)
Theorem setup_registers_webhooks {Ext}
    (env : Ext -> Call -> Result * Ext) (w w' : World Ext) h p c r t srv :
  setup env w = (Normal tt, w') ->
  In {| ev_call := AdminServer_init h p c r t; ev_result := Returns srv |}
    (calls_since w w') ->
  admin_server (self w') = srv
  /\ c = context (self w')
  /\ r = outbound_message_router_ref
  /\ t = put_task_ref (dispatcher (self w'))
  /\ exists urls us res,
       In {| ev_call := settings_get c "admin.webhook_urls" VNone;
             ev_result := Returns urls |} (calls_since w w')
       /\ (if truthy urls then elements urls = Some us else us = [])
       /\ map ev_call (webhook_registrations (calls_since w w'))
          = map (add_webhook_target srv) us
       /\ In {| ev_call := bind_instance c (VClass "BaseAdminServer") srv;
                ev_result := Returns res |} (calls_since w w').
Proof.
  intros Hrun Hin.
  destruct (admin_event_inv env w w' _ _ Hrun Hin eq_refl)
    as (ctx & d & wk & w0 & oa & Ha & Hin' & Hsk & _ & Hw & Hsub & _ & Hrest).
  destruct Hrest as [(e & _ & He & _) | (-> & [(e & He & _) | (_ & Hs)])];
    try discriminate He.
  destruct (setup_admin_api_success env _ _ _ _ _ _ _ _ _ _ Ha Hin')
    as (-> & -> & -> & Hs0 & _ & urls & us & res & Hu & Hus & Hmap & Hlast).
  rewrite Hs, Hs0, Hsk. cbn.
  repeat (split; [reflexivity |]).
  exists urls, us, res. split; [auto |]. split; [assumption |].
  split; [now rewrite Hw |].
  apply Hsub. apply last_Some in Hlast. destruct Hlast as (l' & ->).
  apply in_or_app. right. left. reflexivity.
Qed.

Lemma setup_registers_webhooks_witness :
  admin_server (self (snd (setup scripted admin_setup_world))) = VObj 5.
Proof.
  refine (proj1
            (setup_registers_webhooks scripted admin_setup_world _
               (VStr "0.0.0.0") (VStr "80") (VObj 1)
               outbound_message_router_ref (put_task_ref (VObj 2)) (VObj 5)
               _ _)).
  - vm_compute. reflexivity.
  - among.
Defined.

(** X9. A failure while the admin server is constructed, registered with its
    webhook targets or bound is fatal: the exception is the outcome of
    [setup], the context of the Conductor is not assigned, and an
    [Exception] is logged first. *)
Theorem setup_admin_failure_is_fatal {Ext}
    (env : Ext -> Call -> Result * Ext) (w w' : World Ext) out ev e :
  setup env w = (out, w') ->
  In ev (calls_since w w') ->
  ev_result ev = Raises e ->
  is_admin_construction (ev_call ev) = true ->
  out = Raised e
  /\ context (self w') = context (self w)
  /\ (is_Exception e = true -> logged_since w w' = [admin_register_failed e]).
Proof.
  intros Hrun Hin Hres Hc.
  destruct (admin_event_inv env w w' _ _ Hrun Hin (admin_construction_api _ Hc))
    as (ctx & d & wk & w0 & oa & Ha & Hin' & Hsk & Hl & _ & _ & _ & Hrest).
  destruct (setup_admin_api_failure env _ _ _ _ _ _ _ Ha Hin' Hres Hc)
    as (-> & Hlog).
  destruct Hrest as [(e' & He & -> & Hs) | (He & _)]; [| discriminate He].
  injection He as <-.
  split; [reflexivity |]. split.
  - pose proof (setup_admin_api_frame env _ _ _ _ _ Ha) as (_ & (H1 & _) & _).
    rewrite Hs, H1, Hsk. reflexivity.
  - intros He. rewrite Hl. auto.
Qed.

Lemma setup_admin_failure_is_fatal_witness :
  fst (setup scripted admin_init_fails_world) = Raised (PyException "OSError").
Proof.
  refine (proj1
            (setup_admin_failure_is_fatal scripted admin_init_fails_world _ _
               {| ev_call := AdminServer_init (VStr "0.0.0.0") (VStr "80")
                               (VObj 1) outbound_message_router_ref
                               (put_task_ref (VObj 2));
                  ev_result := Raises (PyException "OSError") |}
               (PyException "OSError") _ _ _ _)).
  - apply surjective_pairing.
  - among.
  - reflexivity.
  - reflexivity.
Defined.

(** X10. A setting [admin.webhook_urls] that is true but cannot be iterated
    over (a number, [True]) makes [setup] fail with a [TypeError], logged
    as a failure to register the admin server; no target is registered. *)
Theorem setup_rejects_bad_webhook_urls {Ext}
    (env : Ext -> Call -> Result * Ext) (w w' : World Ext) out c urls :
  setup env w = (out, w') ->
  In {| ev_call := settings_get c "admin.webhook_urls" VNone;
        ev_result := Returns urls |} (calls_since w w') ->
  truthy urls = true ->
  elements urls = None ->
  out = Raised TypeError
  /\ logged_since w w' = [admin_register_failed TypeError]
  /\ webhook_registrations (calls_since w w') = [].
Proof.
  intros Hrun Hin Hu He.
  destruct (admin_event_inv env w w' _ _ Hrun Hin eq_refl)
    as (ctx & d & wk & w0 & oa & Ha & Hin' & Hsk & Hl & Hw & _ & _ & Hrest).
  destruct (setup_admin_api_bad_urls env _ _ _ _ _ _ _ Ha Hin' Hu He)
    as (-> & Hlog & Hnone).
  destruct Hrest as [(e' & He' & -> & _) | (He' & _)]; [| discriminate He'].
  injection He' as <-. rewrite Hl, Hw. auto.
Qed.

Lemma setup_rejects_bad_webhook_urls_witness :
  fst (setup scripted bad_webhooks_world) = Raised TypeError.
Proof.
  refine (proj1
            (setup_rejects_bad_webhook_urls scripted bad_webhooks_world _ _
               (VObj 1) (VInt 5) _ _ _ _)).
  - apply surjective_pairing.
  - among.
  - reflexivity.
  - reflexivity.
Defined.

(** X11. What [setup] wraps for the statistics: a call of [wrap] is made only
    on a collector that is true and that the context built in this run
    returned for the class [Collector], and only for the outbound router of
    the Conductor, [handle_message] of its Dispatcher or the
    three methods of the class [ConnectionManager]. *)
Theorem setup_wraps_with_collector {Ext}
    (env : Ext -> Call -> Result * Ext) (w w' : World Ext) out c obj names r :
  setup env w = (out, w') ->
  In {| ev_call := Collector_wrap c obj names; ev_result := r |}
    (calls_since w w') ->
  truthy c = true
  /\ In (obj, names) (wrap_targets (dispatcher (self w')))
  /\ exists ctx,
       In {| ev_call := ContextBuilder_build (context_builder (self w));
             ev_result := Returns ctx |} (calls_since w w')
       /\ In {| ev_call := inject ctx (VClass "Collector") false;
                ev_result := Returns c |} (calls_since w w').
Proof.
  intros Hrun Hin. apply setup_shape in Hrun.
  destruct Hrun as [(e & _ & _ & _ & _ & Hf) | Hrun].
  { rewrite List.Forall_forall in Hf. apply Hf in Hin. discriminate Hin. }
  destruct Hrun as (ctx & d & itm & otm & r1 & r2 & wk & w0 & oa
                    & Hsk & Hd & Hi & Ho & Ha & Hh & Hl & Hrest).
  pose proof (setup_admin_api_frame env _ _ _ _ _ Ha)
    as (_ & (_ & _ & H3 & _) & _).
  rewrite Hsk in H3. cbn in H3.
  pose proof (setup_admin_api_extends env _ _ _ _ _ Ha) as Hxa.
  apply extends_since in Hxa. destruct Hxa as (_ & _ & Hfa).
  rewrite List.Forall_forall in Hfa.
  destruct Hrest as [(e & -> & -> & Hs & Hc)
                    | (-> & oc & w2 & Hcr & Hc & Hrest)].
  - rewrite Hc in Hin. apply in_app_or in Hin. destruct Hin as [Hin | Hin].
    { apply in_wiring in Hin. discriminate Hin. }
    apply Hfa in Hin. discriminate Hin.
  - rewrite Hc in Hin. apply in_app_or in Hin. destruct Hin as [Hin | Hin].
    { apply in_wiring in Hin. discriminate Hin. }
    apply in_app_or in Hin. destruct Hin as [Hin | Hin].
    { apply Hfa in Hin. discriminate Hin. }
    pose proof (fetch_stats_collector_facts env _ _ _ _ _ Hcr)
      as (_ & _ & _ & _ & _ & Hwrap).
    destruct (Hwrap _ _ _ _ Hin) as (Hc1 & Hc2 & Hc3).
    split; [assumption |]. split.
    + destruct Hrest as [(e & _ & _ & ->) | (_ & _ & ->)]; cbn;
        rewrite H3; assumption.
    + exists ctx. rewrite Hc. split.
      * apply in_or_app. left. left. reflexivity.
      * apply in_or_app. right. apply in_or_app. right. assumption.
Qed.

Lemma setup_wraps_with_collector_witness :
  In (VConductor, VTuple [VStr "outbound_message_router"])
    (wrap_targets (dispatcher (self (snd (setup scripted fresh_world))))).
Proof.
  refine (proj1 (proj2
            (setup_wraps_with_collector scripted fresh_world _ _ (VObj 9)
               VConductor (VTuple [VStr "outbound_message_router"])
               (Returns VNone) _ _))).
  - apply surjective_pairing.
  - among.
Defined.

(** * The blocks of start *)

Section StartBlocks.

Context {Ext : Type}.
Variable env : Ext -> Call -> Result * Ext.

(** The banner block changes nothing but the trace; the banner shows the
    public DID and the admin server it was given. *)
Lemma show_banner_facts this ctx did (w w' : World Ext) out :
  show_banner env this ctx did w = (out, w') ->
  self w' = self w /\ heap w' = heap w /\ log w' = log w
  /\ stdout w' = stdout w
  /\ out <> Returned
  /\ extends is_banner_call w w'
  /\ forall l a b d s r,
       In {| ev_call := print_banner l a b d s; ev_result := r |}
         (calls_since w w') ->
       d = did /\ s = admin_server this.
Proof.
  intros Hrun. unfold show_banner in Hrun. unfold_run Hrun.
  finish_run Hrun.
  all: repeat (split; [first [reflexivity | discriminate | extends_explicit] |]).
  all: since; intros l0 a0 b0 d0 s0 r0 Hin; in_events Hin.
  all: split; reflexivity.
Qed.

(** The test-suite block: it logs nothing and leaves the Conductor and
    the store alone; no exception is caught in it; with the flag false it
    does nothing more; the static connection is created with the two
    fixed seeds, the endpoint read from the settings, the role "tester"
    and the alias "test-suite", by a manager built from the context of
    the Conductor. *)
Lemma create_test_suite_connection_facts this ctx (w w' : World Ext) out :
  create_test_suite_connection env this ctx w = (out, w') ->
  self w' = self w /\ heap w' = heap w /\ log w' = log w
  /\ out <> Returned
  /\ extends is_test_suite_call w w'
  /\ (forall ev e, In ev (calls_since w w') -> ev_result ev = Raises e ->
        out = Raised e /\ last (calls_since w w') = Some ev)
  /\ (forall c v,
        In {| ev_call := settings_get c "debug.test_suite_endpoint" VNone;
              ev_result := Returns v |} (calls_since w w') ->
        truthy v = false ->
        out = Normal tt /\ stdout w' = stdout w
        /\ calls_since w w'
           = [{| ev_call := settings_get ctx "debug.test_suite_endpoint" VNone;
                 ev_result := Returns v |}])
  /\ forall m a b ep role alias r,
       In {| ev_call := create_static_connection m a b ep role alias;
             ev_result := r |} (calls_since w w') ->
       a = VDigest "aries-protocol-test-subject"
       /\ b = VDigest "aries-protocol-test-suite"
       /\ role = VStr "tester" /\ alias = VStr "test-suite"
       /\ In {| ev_call := ConnectionManager_init (context this);
                ev_result := Returns m |} (calls_since w w')
       /\ In {| ev_call := settings_getitem ctx "debug.test_suite_endpoint";
                ev_result := Returns ep |} (calls_since w w').
Proof.
  intros Hrun. unfold create_test_suite_connection in Hrun. unfold_run Hrun.
  finish_run Hrun.
  all: repeat (split; [first [reflexivity | discriminate | extends_explicit] |]).
  all: since.
  all: split; [| split].
  all: first
    [ intros ev e' Hin Hres; in_events Hin; cbn in Hres;
      try discriminate Hres; injection Hres as <-; split; reflexivity
    | intros c0 v' Hin Hv; in_events Hin; try congruence;
      repeat split; reflexivity
    | intros m0 a0 b0 ep0 role0 alias0 r0 Hin; in_events Hin;
      repeat (split; [reflexivity |]); split; find_event ].
Qed.

(** The invitation block: it leaves the Conductor and the store alone;
    once the flag is read, no [Exception] leaves it: whatever raises, the
    construction of the manager included, ends the block, is logged when
    it is an [Exception] and is the outcome only when it is not; with the
    flag false the block does nothing more. *)
Lemma print_invitation_facts this ctx (w w' : World Ext) out :
  print_invitation env this ctx w = (out, w') ->
  self w' = self w /\ heap w' = heap w
  /\ out <> Returned
  /\ extends is_invitation_call w w'
  /\ (forall ev e, In ev (calls_since w w') -> ev_result ev = Raises e ->
        is_invitation_flag_read (ev_call ev) = false ->
        last (calls_since w w') = Some ev
        /\ stdout w' = stdout w
        /\ if is_Exception e
           then out = Normal tt /\ logged_since w w' = [invitation_failed e]
           else out = Raised e /\ logged_since w w' = [])
  /\ (forall c v,
        In {| ev_call := settings_get c "debug.print_invitation" VNone;
              ev_result := Returns v |} (calls_since w w') ->
        truthy v = false ->
        out = Normal tt /\ stdout w' = stdout w /\ log w' = log w
        /\ calls_since w w'
           = [{| ev_call := settings_get ctx "debug.print_invitation" VNone;
                 ev_result := Returns v |}])
  /\ (forall m a b c d v,
        In {| ev_call := create_invitation m a b c d; ev_result := Returns v |}
          (calls_since w w') ->
        (forall x y, elements v <> Some [x; y]) ->
        out = Normal tt /\ stdout w' = stdout w
        /\ logged_since w w'
           = [invitation_failed
                (match elements v with Some _ => ValueError | None => TypeError end)])
  /\ forall i b u,
       In {| ev_call := to_url i b; ev_result := Returns u |} (calls_since w w') ->
       out = Normal tt
       /\ stdout w' = stdout w ++ [[VStr "Invitation URL:"]; [u]]
       /\ logged_since w w' = []
       /\ exists m r l mu p pair x,
            In {| ev_call := create_invitation m r l mu p;
                  ev_result := Returns pair |} (calls_since w w')
            /\ elements pair = Some [x; i].
Proof.
  intros Hrun. unfold print_invitation in Hrun. unfold_run Hrun.
  finish_run Hrun.
  all: repeat (split; [first [reflexivity | discriminate | extends_explicit] |]).
  all: since.
  all: split; [| split; [| split]].
  all: solve
    [ intros ev e' Hin Hres Hfl; in_events Hin; cbn in Hres, Hfl;
      try discriminate Hres; try discriminate Hfl; injection Hres as <-;
      (split; [reflexivity |]); (split; [reflexivity |]);
      rewrite ?Heqb, ?Heqb0, ?Heqb1, ?Heqb2, ?Heqb3, ?Heqb4, ?Heqb5, ?Heqb6,
        ?Heqb7, ?Heqb8, ?Heqb9, ?Heqb10;
      split; reflexivity
    | intros c0 v' Hin Hv; in_events Hin; try congruence;
      repeat split; reflexivity
    | intros m0 a0 b0 c0 d0 v' Hin Hne; in_events Hin;
      try (exfalso; eapply Hne; eassumption);
      rewrite ?Heqo; repeat split; reflexivity
    | intros i0 b0 u0 Hin; in_events Hin;
      repeat (split; [first [reflexivity
                            | rewrite <- app_assoc; reflexivity] |]);
      do 7 eexists; (split; [find_event | eassumption]) ].
Qed.

(** The runs of [start]: it stops in the start-up proper, or it goes
    through it and runs the banner block, then the test-suite block, then
    the invitation block, each of which may raise. *)
Lemma start_shape (w w' : World Ext) out :
  start env w = (out, w') ->
  (exists e,
      out = Raised e /\ self w' = self w /\ heap w' = heap w
      /\ stdout w' = stdout w
      /\ Forall (fun ev => is_startup_proper_call (ev_call ev) = true)
           (calls_since w w'))
  \/ exists did wk w1 ob,
       Forall (fun ev => is_startup_proper_call (ev_call ev) = true)
         (calls_since w wk)
       /\ trace wk = trace w ++ calls_since w wk
       /\ log wk = log w ++ logged_since w wk
       /\ self wk = self w /\ heap wk = heap w /\ stdout wk = stdout w
       /\ In {| ev_call := wallet_config (context (self w));
                ev_result := Returns did |} (calls_since w wk)
       /\ show_banner env (self w) (context (self w)) did wk = (ob, w1)
       /\ ((exists e, ob = Raised e /\ out = Raised e /\ w' = w1)
           \/ (ob = Normal tt
               /\ exists ot w2,
                    create_test_suite_connection env (self w)
                      (context (self w)) w1 = (ot, w2)
                    /\ ((exists e, ot = Raised e /\ out = Raised e /\ w' = w2)
                        \/ (ot = Normal tt
                            /\ exists oi,
                                 print_invitation env (self w)
                                   (context (self w)) w2 = (oi, w')
                                 /\ out = oi)))).
Proof.
  intros Hrun.
  unfold start, start_transports, start_admin_server in Hrun.
  unfold_run Hrun. finish_run Hrun.
  all: try match goal with
           | H : show_banner _ _ _ _ _ = (Returned, _) |- _ =>
               exfalso; apply show_banner_facts in H; tauto
           | H : create_test_suite_connection _ _ _ _ = (Returned, _) |- _ =>
               exfalso; apply create_test_suite_connection_facts in H; tauto
           | H : print_invitation _ _ _ _ = (Returned, _) |- _ =>
               exfalso; apply print_invitation_facts in H; tauto
           end.
  all: try solve [left; eexists; since;
                  repeat (split; [reflexivity |]); repeat constructor].
  all: repeat match goal with a : unit |- _ => destruct a end.
  all: right;
    match goal with
    | H : show_banner _ _ _ ?did ?wk = (?ob, ?w1) |- _ =>
        remember wk as wk0 eqn:Hwk in *; exists did, wk0, w1, ob
    end;
    repeat (split;
            [solve [subst wk0; since;
                    first [reflexivity | symmetry; apply app_nil_r
                          | repeat constructor | find_event]] |]);
    (split; [eassumption |]).
  all: first
    [ left; eexists; repeat split; fail
    | right; split; [reflexivity |]; do 2 eexists; split; [eassumption |];
      first [ left; eexists; repeat split; fail
            | right; split; [reflexivity |]; eexists;
              split; [eassumption | reflexivity] ] ].
Qed.

End StartBlocks.

Section StartStages.

Context {Ext : Type}.
Variable env : Ext -> Call -> Result * Ext.

Lemma calls_since_refl (w : World Ext) : calls_since w w = [].
Proof. apply drop_length_self. Qed.

Lemma logged_since_refl (w : World Ext) : logged_since w w = [].
Proof. apply drop_length_self. Qed.

(** The same runs, stage by stage: a stage that is not reached leaves the
    world as it is and hands the outcome on. *)
Lemma start_stages (w w' : World Ext) out :
  start env w = (out, w') ->
  (exists e,
      out = Raised e /\ self w' = self w /\ heap w' = heap w
      /\ stdout w' = stdout w
      /\ Forall (fun ev => is_startup_proper_call (ev_call ev) = true)
           (calls_since w w'))
  \/ exists did wk w1 w2 ob ot,
       Forall (fun ev => is_startup_proper_call (ev_call ev) = true)
         (calls_since w wk)
       /\ In {| ev_call := wallet_config (context (self w));
                ev_result := Returns did |} (calls_since w wk)
       /\ self wk = self w /\ heap wk = heap w /\ stdout wk = stdout w
       /\ show_banner env (self w) (context (self w)) did wk = (ob, w1)
       /\ match ob with
          | Normal _ =>
              create_test_suite_connection env (self w) (context (self w)) w1
              = (ot, w2)
          | _ => w2 = w1 /\ ot = ob
          end
       /\ match ot with
          | Normal _ =>
              print_invitation env (self w) (context (self w)) w2 = (out, w')
          | _ => w' = w2 /\ out = ot
          end
       /\ calls_since w w'
          = calls_since w wk ++ calls_since wk w1 ++ calls_since w1 w2
            ++ calls_since w2 w'
       /\ logged_since w w' = logged_since w wk ++ logged_since w2 w'
       /\ stdout w1 = stdout w.
Proof.
  intros Hrun. apply start_shape in Hrun.
  destruct Hrun as [Hrun | Hrun]; [left; exact Hrun | right].
  destruct Hrun as (did & wk & w1 & ob & Hp & Htk & Hlk & Hsk & Hhk & Hok
                    & Hdid & Hb & Hrest).
  pose proof (show_banner_facts env _ _ _ _ _ _ Hb)
    as (_ & _ & Hlb & Hob & _ & Hxb & _).
  apply extends_since in Hxb. destruct Hxb as (Htb & _ & _).
  destruct Hrest as [(e & -> & -> & ->) | (-> & ot & w2 & Ht & Hrest)].
  - exists did, wk, w1, w1, (Raised e), (Raised e).
    repeat (split; [first [assumption | reflexivity | (split; reflexivity)] |]).
    rewrite !calls_since_refl, !logged_since_refl, !app_nil_r.
    split; [| split; [| congruence]].
    + unfold calls_since at 1. rewrite Htb, Htk, <- app_assoc.
      apply drop_length_app.
    + unfold logged_since at 1. rewrite Hlb, Hlk. apply drop_length_app.
  - pose proof (create_test_suite_connection_facts env _ _ _ _ _ Ht)
      as (_ & _ & Hlt & _ & Hxt & _).
    apply extends_since in Hxt. destruct Hxt as (Htt & _ & _).
    destruct Hrest as [(e & -> & -> & ->) | (-> & oi & Hi & ->)].
    + exists did, wk, w1, w2, (Normal tt), (Raised e).
      repeat (split; [first [assumption | reflexivity | (split; reflexivity)] |]).
      rewrite !calls_since_refl, !logged_since_refl, !app_nil_r.
      split; [| split; [| congruence]].
      * unfold calls_since at 1. rewrite Htt, Htb, Htk, <- !app_assoc.
        apply drop_length_app.
      * unfold logged_since at 1. rewrite Hlt, Hlb, Hlk.
        apply drop_length_app.
    + pose proof (print_invitation_facts env _ _ _ _ _ Hi)
        as (_ & _ & _ & Hxi & _).
      apply extends_since in Hxi. destruct Hxi as (Hti & Hli & _).
      exists did, wk, w1, w2, (Normal tt), (Normal tt).
      repeat (split; [first [assumption | reflexivity | (split; reflexivity)] |]).
      split; [| split; [| congruence]].
      * unfold calls_since at 1. rewrite Hti, Htt, Htb, Htk, <- !app_assoc.
        apply drop_length_app.
      * unfold logged_since at 1. rewrite Hli, Hlt, Hlb, Hlk, <- app_assoc.
        apply drop_length_app.
Qed.

End StartStages.

(** Decides the comparisons of a key with string constants. *)
Ltac by_keys :=
  unfold is_after_startup_call, is_startup_proper_call, is_startup_call,
    is_banner_call, is_test_suite_call, is_invitation_call,
    is_invitation_step, is_invitation_flag_read, is_manager_init in *;
  cbn in *;
  repeat match goal with
         | |- context [String.eqb ?k ?s] =>
             is_var k; destruct (String.eqb_spec k s); subst; cbn
         | H : context [String.eqb ?k ?s] |- _ =>
             is_var k; destruct (String.eqb_spec k s); subst; cbn in H
         end;
  try discriminate; try reflexivity; try congruence.

Lemma proper_not_after c :
  is_startup_proper_call c = true -> is_after_startup_call c = false.
Proof. destruct c; intros H; try discriminate H; by_keys. Qed.

Lemma banner_not_others c :
  is_banner_call c = true ->
  is_test_suite_call c = false /\ is_invitation_call c = false.
Proof. destruct c; intros H; try discriminate H; split; by_keys. Qed.

Lemma test_suite_not_others c :
  is_test_suite_call c = true ->
  is_banner_call c = false
  /\ (is_manager_init c = false -> is_invitation_call c = false).
Proof. destruct c; intros H; try discriminate H; split; by_keys. Qed.

Lemma invitation_not_others c :
  is_invitation_call c = true ->
  is_banner_call c = false
  /\ (is_manager_init c = false -> is_test_suite_call c = false).
Proof. destruct c; intros H; try discriminate H; split; by_keys. Qed.

Lemma after_startup_cases c :
  is_banner_call c = true \/ is_test_suite_call c = true
  \/ is_invitation_call c = true ->
  is_after_startup_call c = true.
Proof.
  unfold is_after_startup_call.
  intros [-> | [-> | ->]]; rewrite ?orb_true_r; reflexivity.
Qed.

Section StartLocate.

Context {Ext : Type}.
Variable env : Ext -> Call -> Result * Ext.

(** Where an event of a run of [start] that is a call of one of the
    blocks after the start-up comes from. *)
Lemma start_locate (w w' : World Ext) out ev :
  start env w = (out, w') ->
  In ev (calls_since w w') ->
  is_after_startup_call (ev_call ev) = true ->
  exists did wk w1 w2 ob ot,
    In {| ev_call := wallet_config (context (self w));
          ev_result := Returns did |} (calls_since w w')
    /\ stdout w1 = stdout w
    /\ show_banner env (self w) (context (self w)) did wk = (ob, w1)
    /\ calls_since w w'
       = calls_since w wk ++ calls_since wk w1 ++ calls_since w1 w2
         ++ calls_since w2 w'
    /\ logged_since w w' = logged_since w wk ++ logged_since w2 w'
    /\ Forall (fun ev => is_startup_proper_call (ev_call ev) = true)
         (calls_since w wk)
    /\ Forall (fun ev => is_banner_call (ev_call ev) = true) (calls_since wk w1)
    /\ Forall (fun ev => is_test_suite_call (ev_call ev) = true)
         (calls_since w1 w2)
    /\ Forall (fun ev => is_invitation_call (ev_call ev) = true)
         (calls_since w2 w')
    /\ (In ev (calls_since wk w1)
        \/ (In ev (calls_since w1 w2)
            /\ create_test_suite_connection env (self w) (context (self w)) w1
               = (ot, w2)
            /\ match ot with Normal _ => True | _ => w' = w2 /\ out = ot end)
        \/ (In ev (calls_since w2 w')
            /\ create_test_suite_connection env (self w) (context (self w)) w1
               = (Normal tt, w2)
            /\ print_invitation env (self w) (context (self w)) w2 = (out, w'))).
Proof.
  intros Hrun Hin Hev. apply start_stages in Hrun.
  destruct Hrun as [(e & _ & _ & _ & _ & Hf) | Hrun].
  { rewrite List.Forall_forall in Hf. apply Hf, proper_not_after in Hin.
    congruence. }
  destruct Hrun as (did & wk & w1 & w2 & ob & ot & Hp & Hdid & _ & _ & _
                    & Hb & Ht & Hi & Hcalls & Hlogs & Hout).
  exists did, wk, w1, w2, ob, ot.
  pose proof (show_banner_facts env _ _ _ _ _ _ Hb)
    as (_ & _ & _ & _ & _ & Hxb & _).
  apply extends_since in Hxb. destruct Hxb as (_ & _ & Hfb).
  assert (Hft : Forall (fun ev => is_test_suite_call (ev_call ev) = true)
                  (calls_since w1 w2)).
  { destruct ob as [[] | |]; [| destruct Ht as [-> _] ..];
      rewrite ?calls_since_refl; [| constructor ..].
    pose proof (create_test_suite_connection_facts env _ _ _ _ _ Ht)
      as (_ & _ & _ & _ & Hxt & _).
    apply extends_since in Hxt. tauto. }
  assert (Hfi : Forall (fun ev => is_invitation_call (ev_call ev) = true)
                  (calls_since w2 w')).
  { destruct ot as [[] | |]; [| destruct Hi as [-> _] ..];
      rewrite ?calls_since_refl; [| constructor ..].
    pose proof (print_invitation_facts env _ _ _ _ _ Hi)
      as (_ & _ & _ & Hxi & _).
    apply extends_since in Hxi. tauto. }
  split. { rewrite Hcalls. apply in_or_app. auto. }
  repeat (split; [assumption |]).
  rewrite Hcalls in Hin. apply in_app_or in Hin. destruct Hin as [Hin | Hin].
  { rewrite List.Forall_forall in Hp. apply Hp, proper_not_after in Hin.
    congruence. }
  apply in_app_or in Hin. destruct Hin as [Hin | Hin]; [left; exact Hin |].
  right. apply in_app_or in Hin. destruct Hin as [Hin | Hin].
  - left. destruct ob as [[] | |];
      [| destruct Ht as [-> _]; rewrite calls_since_refl in Hin;
         contradiction ..].
    split; [assumption |]. split; [assumption |].
    destruct ot as [[] | |]; [exact I | exact Hi ..].
  - right. destruct ot as [[] | |];
      [| destruct Hi as [-> _]; rewrite calls_since_refl in Hin;
         contradiction ..].
    destruct ob as [[] | |]; [auto | destruct Ht as [_ Ht]; discriminate Ht ..].
Qed.

End StartLocate.

(** * Further properties of start *)

(** X12. The banner is shown with the public DID that the wallet
    configuration returned and with the admin server of the Conductor. *)
Theorem start_banner {Ext}
    (env : Ext -> Call -> Result * Ext) (w w' : World Ext) out l a b d s r :
  start env w = (out, w') ->
  In {| ev_call := print_banner l a b d s; ev_result := r |} (calls_since w w') ->
  In {| ev_call := wallet_config (context (self w)); ev_result := Returns d |}
    (calls_since w w')
  /\ s = admin_server (self w).
Proof.
  intros Hrun Hin.
  destruct (start_locate env w w' out _ Hrun Hin eq_refl)
    as (did & wk & w1 & w2 & ob & ot & Hdid & _ & Hb & _ & _ & _ & _
        & Hft & Hfi & Hwhere).
  destruct Hwhere as [Hin' | [(Hin' & _) | (Hin' & _)]].
  - pose proof (show_banner_facts env _ _ _ _ _ _ Hb)
      as (_ & _ & _ & _ & _ & _ & Hargs).
    destruct (Hargs _ _ _ _ _ _ Hin') as (-> & ->). auto.
  - rewrite List.Forall_forall in Hft. apply Hft in Hin'. discriminate Hin'.
  - rewrite List.Forall_forall in Hfi. apply Hfi in Hin'. discriminate Hin'.
Qed.

Lemma start_banner_witness :
  In {| ev_call := wallet_config (context (self admin_fails_world));
        ev_result := Returns (VStr "did:sov:me") |}
    (calls_since admin_fails_world (snd (start scripted admin_fails_world))).
Proof.
  refine (proj1
            (start_banner scripted admin_fails_world _ _ (VStr "agent")
               (VList []) (VList []) (VStr "did:sov:me") (VObj 5)
               (Returns VNone) _ _)).
  - apply surjective_pairing.
  - among.
Defined.

(** X13. The static connection for the test suite is created by a manager
    built from the context of the Conductor, with the digests of the two
    fixed byte strings as seeds, the endpoint read from the setting
    [debug.test_suite_endpoint], the role "tester" and the alias
    "test-suite"; when its creation raises, [start] raises, for nothing
    catches it. *)
Theorem start_test_suite_connection {Ext}
    (env : Ext -> Call -> Result * Ext) (w w' : World Ext) out
    m a b ep role alias r :
  start env w = (out, w') ->
  In {| ev_call := create_static_connection m a b ep role alias;
        ev_result := r |} (calls_since w w') ->
  a = VDigest "aries-protocol-test-subject"
  /\ b = VDigest "aries-protocol-test-suite"
  /\ role = VStr "tester" /\ alias = VStr "test-suite"
  /\ In {| ev_call := ConnectionManager_init (context (self w));
           ev_result := Returns m |} (calls_since w w')
  /\ In {| ev_call := settings_getitem (context (self w))
                        "debug.test_suite_endpoint";
           ev_result := Returns ep |} (calls_since w w')
  /\ forall e, r = Raises e -> out = Raised e.
Proof.
  intros Hrun Hin.
  destruct (start_locate env w w' out _ Hrun Hin eq_refl)
    as (did & wk & w1 & w2 & ob & ot & _ & _ & Hb & Hcalls & _ & _ & Hfb
        & _ & Hfi & Hwhere).
  destruct Hwhere as [Hin' | [(Hin' & Ht & Hot) | (Hin' & _)]].
  - rewrite List.Forall_forall in Hfb. apply Hfb in Hin'. discriminate Hin'.
  - pose proof (create_test_suite_connection_facts env _ _ _ _ _ Ht)
      as (_ & _ & _ & _ & _ & Hraise & _ & Hargs).
    destruct (Hargs _ _ _ _ _ _ _ Hin') as (-> & -> & -> & -> & Hm & He).
    repeat (split; [reflexivity |]).
    split; [| split].
    + rewrite Hcalls. apply in_or_app. right. apply in_or_app. right.
      apply in_or_app. auto.
    + rewrite Hcalls. apply in_or_app. right. apply in_or_app. right.
      apply in_or_app. auto.
    + intros e ->. destruct (Hraise _ e Hin' eq_refl) as (-> & _).
      now destruct Hot.
  - rewrite List.Forall_forall in Hfi. apply Hfi in Hin'. discriminate Hin'.
Qed.

Lemma start_test_suite_connection_witness :
  In {| ev_call := ConnectionManager_init (context (self test_suite_world));
        ev_result := Returns (VObj 7) |}
    (calls_since test_suite_world (snd (start scripted test_suite_world))).
Proof.
  refine (proj1 (proj2 (proj2 (proj2 (proj2
            (start_test_suite_connection scripted test_suite_world _ _
               (VObj 7) (VDigest "aries-protocol-test-subject")
               (VDigest "aries-protocol-test-suite") (VStr "http://suite")
               (VStr "tester") (VStr "test-suite") (Returns (VObj 10))
               _ _)))))).
  - apply surjective_pairing.
  - among.
Defined.

(** X14. A failure to create the invitation is never fatal: when a call of
    the invitation block, after the flag was read and the connection
    manager built, raises an [Exception], [start] logs it, calls nothing
    more and returns normally. *)
Theorem start_survives_invitation_failure {Ext}
    (env : Ext -> Call -> Result * Ext) (w w' : World Ext) out ev e :
  start env w = (out, w') ->
  In ev (calls_since w w') ->
  is_invitation_step (ev_call ev) = true ->
  ev_result ev = Raises e ->
  is_Exception e = true ->
  out = Normal tt
  /\ last (logged_since w w') = Some (invitation_failed e)
  /\ last (calls_since w w') = Some ev.
Proof.
  intros Hrun Hin Hstep Hres He.
  assert (Hinv : is_invitation_call (ev_call ev) = true).
  { destruct (ev_call ev); try discriminate Hstep; try reflexivity.
    cbn. cbn in Hstep. rewrite Hstep. apply orb_true_r. }
  assert (Hflag : is_invitation_flag_read (ev_call ev) = false).
  { destruct (ev_call ev); try reflexivity. by_keys. }
  assert (Hmgr : is_manager_init (ev_call ev) = false).
  { destruct (ev_call ev); try reflexivity. discriminate Hstep. }
  destruct (start_locate env w w' out _ Hrun Hin
              (after_startup_cases _ (or_intror (or_intror Hinv))))
    as (did & wk & w1 & w2 & ob & ot & _ & _ & Hb & Hcalls & Hlogs & _ & Hfb
        & Hft & _ & Hwhere).
  destruct Hwhere as [Hin' | [(Hin' & _) | (Hin' & _ & Hi)]].
  - rewrite List.Forall_forall in Hfb. apply Hfb, banner_not_others in Hin'.
    destruct Hin' as [_ Hin']. congruence.
  - rewrite List.Forall_forall in Hft.
    apply Hft, test_suite_not_others in Hin'.
    destruct Hin' as [_ Hin']. specialize (Hin' Hmgr). congruence.
  - pose proof (print_invitation_facts env _ _ _ _ _ Hi)
      as (_ & _ & _ & _ & Hswallow & _).
    destruct (Hswallow _ _ Hin' Hres Hflag) as (Hlast & _ & Hout).
    rewrite He in Hout. destruct Hout as (-> & Hlog).
    split; [reflexivity |]. split.
    + rewrite Hlogs, Hlog. apply last_snoc.
    + rewrite Hcalls, !last_app, Hlast. reflexivity.
Qed.

Lemma start_survives_invitation_failure_witness :
  fst (start scripted invitation_fails_world) = Normal tt.
Proof.
  refine (proj1
            (start_survives_invitation_failure scripted invitation_fails_world
               _ _
               {| ev_call := create_invitation (VObj 7) (VStr "admin")
                               (VStr "agent") (VBool false) (VBool false);
                  ev_result := Raises ConnectionManagerError |}
               ConnectionManagerError _ _ _ _ _)).
  - apply surjective_pairing.
  - among.
  - reflexivity.
  - reflexivity.
  - reflexivity.
Defined.

(** X15. When the invitation is created but is not a pair of a connection and
    an invitation, the failure to unpack it is logged like any other and
    [start] returns normally. *)
Theorem start_survives_malformed_invitation {Ext}
    (env : Ext -> Call -> Result * Ext) (w w' : World Ext) out m a b c d v :
  start env w = (out, w') ->
  In {| ev_call := create_invitation m a b c d; ev_result := Returns v |}
    (calls_since w w') ->
  (forall x y, elements v <> Some [x; y]) ->
  out = Normal tt
  /\ last (logged_since w w')
     = Some (invitation_failed
               (match elements v with Some _ => ValueError | None => TypeError end)).
Proof.
  intros Hrun Hin Hbad.
  destruct (start_locate env w w' out _ Hrun Hin eq_refl)
    as (did & wk & w1 & w2 & ob & ot & _ & _ & Hb & Hcalls & Hlogs & _ & Hfb
        & Hft & _ & Hwhere).
  destruct Hwhere as [Hin' | [(Hin' & _) | (Hin' & _ & Hi)]].
  - rewrite List.Forall_forall in Hfb. apply Hfb in Hin'. discriminate Hin'.
  - rewrite List.Forall_forall in Hft. apply Hft in Hin'. discriminate Hin'.
  - pose proof (print_invitation_facts env _ _ _ _ _ Hi)
      as (_ & _ & _ & _ & _ & _ & Hmal & _).
    destruct (Hmal _ _ _ _ _ _ Hin' Hbad) as (-> & _ & Hlog).
    split; [reflexivity |]. rewrite Hlogs, Hlog. apply last_snoc.
Qed.

Lemma start_survives_malformed_invitation_witness :
  fst (start scripted malformed_invitation_world) = Normal tt.
Proof.
  refine (proj1
            (start_survives_malformed_invitation scripted
               malformed_invitation_world _ _ (VObj 7) (VStr "admin")
               (VStr "agent") (VBool false) (VBool false) (VObj 11) _ _ _)).
  - apply surjective_pairing.
  - among.
  - intros x y H. discriminate H.
Defined.



Lemma extends_weaken {Ext} (P Q : Call -> bool) (w w' : World Ext) :
  (forall c, P c = true -> Q c = true) -> extends P w w' -> extends Q w w'.
Proof.
  intros HPQ (evs & logs & Ht & Hl & Hf). exists evs, logs.
  repeat split; try assumption.
  eapply Forall_impl; [exact Hf |]. cbn. auto.
Qed.

Lemma after_startup_after {Ext} (env : Ext -> Call -> Result * Ext)
    this ctx did (w w' : World Ext) out :
  after_startup env this ctx did w = (out, w') ->
  extends is_after_startup_call w w'.
Proof.
  unfold after_startup. intros Hrun.
  assert (Hb : forall w1 w2 o, show_banner env this ctx did w1 = (o, w2) ->
                 extends is_after_startup_call w1 w2).
  { intros w1 w2 o H. apply show_banner_facts in H.
    eapply extends_weaken; [| apply H].
    intros c Hc. apply after_startup_cases. auto. }
  assert (Ht : forall w1 w2 o,
                 create_test_suite_connection env this ctx w1 = (o, w2) ->
                 extends is_after_startup_call w1 w2).
  { intros w1 w2 o H. apply create_test_suite_connection_facts in H.
    eapply extends_weaken; [| apply H].
    intros c Hc. apply after_startup_cases. auto. }
  assert (Hi : forall w1 w2 o, print_invitation env this ctx w1 = (o, w2) ->
                 extends is_after_startup_call w1 w2).
  { intros w1 w2 o H. apply print_invitation_facts in H.
    eapply extends_weaken; [| apply H].
    intros c Hc. apply after_startup_cases. auto. }
  apply bind_inv in Hrun.
  destruct Hrun as [(a & w1 & H1 & Hrun) | [(H1 & _) | (e & H1 & _)]];
    try (eapply Hb; eassumption).
  apply Hb in H1. apply bind_inv in Hrun.
  destruct Hrun as [(b & w2 & H2 & Hrun) | [(H2 & _) | (e & H2 & _)]];
    try (eapply extends_trans; [eassumption | eapply Ht; eassumption]).
  apply Ht in H2. apply Hi in Hrun. eauto using extends_trans.
Qed.

(** Brings a run of [start] into its cases, as [start_cases] does, with
    the calls after the start-up known to be calls of the three blocks
    after it. *)
Ltac start_cases_after Hrun :=
  rewrite start_eq in Hrun;
  unfold start_transports, start_admin_server in Hrun;
  unfold_run Hrun; finish_run Hrun;
  try match goal with
      | H : after_startup _ _ _ _ _ = _ |- _ =>
          apply after_startup_after in H;
          let evs := fresh "evs" in
          let logs := fresh "logs" in
          let Ht := fresh "Ht" in
          let Hl := fresh "Hl" in
          let Hq := fresh "Hq" in
          destruct H as (evs & logs & Ht & Hl & Hq);
          unfold calls_since, logged_since; rewrite ?Ht, ?Hl
      end;
  since.

(** An event of the statements after the start-up is a call of theirs. *)
Ltac not_before Hq Hin :=
  rewrite List.Forall_forall in Hq; apply Hq in Hin; discriminate Hin.

(** X17. The start-up is strictly sequenced: the ledger is configured with
    the public DID the wallet configuration returned; the inbound
    transports are started only after the ledger is configured, the
    outbound transports only after the inbound ones have started, the
    admin server, if the Conductor has one, only after the outbound
    ones have started; and the blocks after the start-up run only after
    both transport managers have started. *)
Theorem start_sequence {Ext}
    (env : Ext -> Call -> Result * Ext) (w w' : World Ext) out :
  start env w = (out, w') ->
  (forall c d r,
      In {| ev_call := ledger_config c d; ev_result := r |} (calls_since w w') ->
      c = context (self w)
      /\ In {| ev_call := wallet_config (context (self w));
               ev_result := Returns d |} (calls_since w w'))
  /\ (forall m r,
      In {| ev_call := InboundTransportManager_start m; ev_result := r |}
        (calls_since w w') ->
      m = inbound_transport_manager (self w)
      /\ exists d r',
           In {| ev_call := ledger_config (context (self w)) d;
                 ev_result := Returns r' |} (calls_since w w'))
  /\ (forall m r,
      In {| ev_call := OutboundTransportManager_start m; ev_result := r |}
        (calls_since w w') ->
      m = outbound_transport_manager (self w)
      /\ exists r',
           In {| ev_call := InboundTransportManager_start
                              (inbound_transport_manager (self w));
                 ev_result := Returns r' |} (calls_since w w'))
  /\ (forall s r,
      In {| ev_call := AdminServer_start s; ev_result := r |}
        (calls_since w w') ->
      s = admin_server (self w) /\ truthy s = true
      /\ exists r',
           In {| ev_call := OutboundTransportManager_start
                              (outbound_transport_manager (self w));
                 ev_result := Returns r' |} (calls_since w w'))
  /\ (forall ev,
      In ev (calls_since w w') ->
      is_after_startup_call (ev_call ev) = true ->
      exists r1 r2,
        In {| ev_call := InboundTransportManager_start
                           (inbound_transport_manager (self w));
              ev_result := Returns r1 |} (calls_since w w')
        /\ In {| ev_call := OutboundTransportManager_start
                              (outbound_transport_manager (self w));
                 ev_result := Returns r2 |} (calls_since w w')).
Proof.
  intros Hrun. start_cases_after Hrun.
  all: split; [| split; [| split; [| split]]].
  all: solve
    [ intros ? ? ? Hin; in_events Hin; try (not_before Hq Hin);
      (split; [reflexivity | find_event])
    | intros ? ? Hin; in_events Hin; try (not_before Hq Hin);
      (split; [reflexivity |]); eexists _, _; find_event
    | intros ? ? Hin; in_events Hin; try (not_before Hq Hin);
      (split; [reflexivity |]); eexists; find_event
    | intros ? ? Hin; in_events Hin; try (not_before Hq Hin);
      (split; [reflexivity |]); (split; [assumption |]); eexists; find_event
    | intros ev Hin Hev; in_events Hin; try discriminate Hev;
      eexists _, _; (split; find_event) ].
Qed.

Lemma start_sequence_witness :
  exists r',
    In {| ev_call := InboundTransportManager_start
                       (inbound_transport_manager (self admin_fails_world));
          ev_result := Returns r' |}
      (calls_since admin_fails_world (snd (start scripted admin_fails_world))).
Proof.
  refine (proj2 (proj1 (proj2 (proj2
            (start_sequence scripted admin_fails_world _ _ _)))
            (VObj 4) (Returns VNone) _)).
  - apply surjective_pairing.
  - among.
Defined.

(** X18. A failure of the wallet or of the ledger configuration is fatal and
    not logged: the exception is the outcome of [start], nothing is
    logged, and the failed call is the last one, so that no transport is
    started. *)
Theorem start_configuration_failure {Ext}
    (env : Ext -> Call -> Result * Ext) (w w' : World Ext) out :
  start env w = (out, w') ->
  (forall c e,
      In {| ev_call := wallet_config c; ev_result := Raises e |}
        (calls_since w w') ->
      out = Raised e /\ logged_since w w' = []
      /\ calls_since w w'
         = [{| ev_call := wallet_config (context (self w));
               ev_result := Raises e |}])
  /\ (forall c d e,
      In {| ev_call := ledger_config c d; ev_result := Raises e |}
        (calls_since w w') ->
      out = Raised e /\ logged_since w w' = []
      /\ calls_since w w'
         = [{| ev_call := wallet_config (context (self w));
               ev_result := Returns d |};
            {| ev_call := ledger_config (context (self w)) d;
               ev_result := Raises e |}]).
Proof.
  intros Hrun. start_cases_after Hrun.
  all: split.
  all: solve
    [ intros ? ? Hin; in_events Hin; try (not_before Hq Hin);
      repeat split; reflexivity
    | intros ? ? ? Hin; in_events Hin; try (not_before Hq Hin);
      repeat split; reflexivity ].
Qed.

Lemma start_configuration_failure_witness :
  fst (start scripted wallet_fails_world) = Raised (PyException "WalletError").
Proof.
  refine (proj1 (proj1
            (start_configuration_failure scripted wallet_fails_world _ _ _)
            (VObj 1) (PyException "WalletError") _)).
  - apply surjective_pairing.
  - among.
Defined.

(** X19. A Conductor without admin server starts none: [start] neither starts
    an admin server nor reads or binds a responder. *)
Theorem start_without_admin_server {Ext}
    (env : Ext -> Call -> Result * Ext) (w w' : World Ext) out :
  truthy (admin_server (self w)) = false ->
  start env w = (out, w') ->
  forall ev, In ev (calls_since w w') ->
    is_admin_startup_call (ev_call ev) = false.
Proof.
  intros Hadmin Hrun. start_cases_after Hrun; try congruence.
  all: intros ev Hin; in_events Hin; try reflexivity.
  all: rewrite List.Forall_forall in Hq; apply Hq in Hin.
  all: destruct (ev_call ev); try reflexivity; try discriminate Hin.
  all: revert Hin; by_keys.
Qed.

Lemma start_without_admin_server_witness :
  is_admin_startup_call
    (ev_call {| ev_call := get_attribute (VObj 10) "my_did";
                ev_result := Returns (VStr "did:sov:mine") |}) = false.
Proof.
  refine (start_without_admin_server scripted test_suite_world
            (snd (start scripted test_suite_world))
            (fst (start scripted test_suite_world)) _ _
            {| ev_call := get_attribute (VObj 10) "my_did";
               ev_result := Returns (VStr "did:sov:mine") |} _).
  - reflexivity.
  - apply surjective_pairing.
  - among.
Defined.

(** X20. [start] assigns nothing: the Conductor and the store of outbound
    messages are after [start] what they were before. *)
Theorem start_frame {Ext}
    (env : Ext -> Call -> Result * Ext) (w w' : World Ext) out :
  start env w = (out, w') ->
  self w' = self w /\ heap w' = heap w.
Proof.
  intros Hrun. apply start_stages in Hrun.
  destruct Hrun as [(e & _ & Hs & Hh & _) | Hrun]; [auto |].
  destruct Hrun as (did & wk & w1 & w2 & ob & ot & _ & _ & Hsk & Hhk & _
                    & Hb & Ht & Hi & _).
  pose proof (show_banner_facts env _ _ _ _ _ _ Hb) as (Hs1 & Hh1 & _).
  assert (H2 : self w2 = self w1 /\ heap w2 = heap w1).
  { destruct ob as [[] | |]; [| destruct Ht as [-> _]; auto ..].
    apply create_test_suite_connection_facts in Ht. tauto. }
  assert (H3 : self w' = self w2 /\ heap w' = heap w2).
  { destruct ot as [[] | |]; [| destruct Hi as [-> _]; auto ..].
    apply print_invitation_facts in Hi. tauto. }
  destruct H2, H3. split; congruence.
Qed.

Lemma start_frame_witness :
  self (snd (start scripted admin_fails_world)) = self admin_fails_world.
Proof.
  refine (proj1 (start_frame scripted admin_fails_world _ _ _)).
  apply surjective_pairing.
Defined.

(** * Properties of stop *)

Ltac unfold_stop H :=
  unfold stop, stop_component, lookup_method, stop_ask, stop_answered in H;
  unfold_run H; cbn [stopped collaborators] in H.

Ltac stop_since :=
  unfold stopped_since, stop_answered in *;
  cbn [trace log heap self ext stdout stopped collaborators] in *;
  rewrite <- ?app_assoc in *; cbn [app] in *;
  rewrite ?drop_length_app, ?drop_length_self in *.

Ltac finish_stop H :=
  repeat (split_run H; cbv beta iota zeta in H;
          cbn [self heap log stdout trace ext stopped collaborators] in H);
  try discriminate H;
  try (injection H as <- <-);
  simplify_eq.

(** X21. [stop] leaves the Conductor as it is: the components it stopped are
    still assigned, no message is touched, nothing is logged or printed,
    whether [stop] returns or raises. *)
Theorem stop_frame {X}
    (env : X -> StopCall -> Result * X) timeout (w w' : World (Shutdown X)) out :
  stop env timeout w = (out, w') ->
  self w' = self w /\ heap w' = heap w /\ log w' = log w
  /\ stdout w' = stdout w.
Proof.
  intros Hrun. unfold_stop Hrun. finish_stop Hrun; repeat split; reflexivity.
Qed.

Lemma stop_frame_witness :
  self (snd (stop scripted_stop (VInt 2) stoppable_world))
  = self stoppable_world.
Proof.
  refine (proj1 (stop_frame scripted_stop (VInt 2) stoppable_world _ _ _)).
  apply surjective_pairing.
Defined.

(** X22. A [stop] that returns normally has created one task queue, has
    called [stop] on the admin server, the Inbound and the Outbound
    Transport Manager, in this order and skipping those that are not set,
    has handed each coroutine to [run] of the queue right away, and has
    ended with [complete] of the queue with the timeout it was given. *)
Theorem stop_completes {X}
    (env : X -> StopCall -> Result * X) timeout (w w' : World (Shutdown X)) :
  stop env timeout w = (Normal tt, w') ->
  exists q ca ra ci ri co ro rc,
    is_None q = false
    /\ stopped_since w w'
       = {| stop_call := TaskQueue_init; stop_result := Returns q |}
         :: stopping q (admin_server (self w)) ca ra
         ++ stopping q (inbound_transport_manager (self w)) ci ri
         ++ stopping q (outbound_transport_manager (self w)) co ro
         ++ [{| stop_call := TaskQueue_complete q timeout;
                stop_result := Returns rc |}].
Proof.
  intros Hrun. unfold_stop Hrun. finish_stop Hrun; stop_since.
  all: unfold stopping;
    repeat match goal with
           | H : truthy _ = _ |- _ => rewrite H
           end;
    cbn [app].
  all: match goal with
       | H : is_None ?q = false |- _ => exists q
       end.
  all: repeat match goal with
              | |- Value => exact VNone
              | |- ex _ => eexists
              end.
  all: split; [assumption | reflexivity].
Qed.

Lemma stop_completes_witness :
  exists q rc,
    In {| stop_call := TaskQueue_complete q (VInt 2);
          stop_result := Returns rc |}
      (stopped_since stoppable_world
         (snd (stop scripted_stop (VInt 2) stoppable_world))).
Proof.
  destruct (stop_completes scripted_stop (VInt 2) stoppable_world
              (snd (stop scripted_stop (VInt 2) stoppable_world)))
    as (q & ca & ra & ci & ri & co & ro & rc & _ & Hcalls).
  - vm_compute. reflexivity.
  - exists q, rc. rewrite Hcalls. cbn. do 7 right. left. reflexivity.
Defined.

(** X23. A failure while stopping is fatal: the exception of a call that
    raised is the outcome of [stop] and that call is the last one, so that
    the components after it are not stopped and the queue is not waited
    for. *)
Theorem stop_failure {X}
    (env : X -> StopCall -> Result * X) timeout (w w' : World (Shutdown X)) out
    ev e :
  stop env timeout w = (out, w') ->
  In ev (stopped_since w w') ->
  stop_result ev = Raises e ->
  out = Raised e /\ last (stopped_since w w') = Some ev.
Proof.
  intros Hrun Hin Hres. unfold_stop Hrun. finish_stop Hrun; stop_since.
  all: cbn [In] in Hin;
    repeat (destruct Hin as [<- | Hin];
            [first [discriminate Hres
                   | (injection Hres as <-; split; reflexivity)] |]);
    contradiction.
Qed.

Lemma stop_failure_witness :
  fst (stop scripted_stop (VInt 2) admin_stop_fails_world)
  = Raised (PyException "RuntimeError").
Proof.
  refine (proj1
            (stop_failure scripted_stop (VInt 2) admin_stop_fails_world _ _
               {| stop_call := component_stop (VObj 5);
                  stop_result := Raises (PyException "RuntimeError") |}
               (PyException "RuntimeError") _ _ _)).
  - apply surjective_pairing.
  - among.
  - reflexivity.
Defined.

(** X24. Whatever the outcome of [stop]: [stop] is called only on the admin
    server and the transport managers of the Conductor, and only on those
    that are set; a coroutine is handed to [run] only if a component's
    [stop] returned it, on the queue created in this run; and [complete]
    is called on that queue with the timeout given. *)
Theorem stop_schedules {X}
    (env : X -> StopCall -> Result * X) timeout (w w' : World (Shutdown X)) out :
  stop env timeout w = (out, w') ->
  (forall x r,
      In {| stop_call := component_stop x; stop_result := r |}
        (stopped_since w w') ->
      truthy x = true
      /\ In x [admin_server (self w); inbound_transport_manager (self w);
               outbound_transport_manager (self w)])
  /\ (forall q c r,
      In {| stop_call := TaskQueue_run q c; stop_result := r |}
        (stopped_since w w') ->
      In {| stop_call := TaskQueue_init; stop_result := Returns q |}
        (stopped_since w w')
      /\ exists x,
           In {| stop_call := component_stop x; stop_result := Returns c |}
             (stopped_since w w'))
  /\ (forall q t r,
      In {| stop_call := TaskQueue_complete q t; stop_result := r |}
        (stopped_since w w') ->
      t = timeout
      /\ In {| stop_call := TaskQueue_init; stop_result := Returns q |}
           (stopped_since w w')).
Proof.
  intros Hrun. unfold_stop Hrun. finish_stop Hrun; stop_since.
  all: split; [| split].
  all: solve
    [ intros ? ? Hin; cbn [In] in Hin;
      repeat (destruct Hin as [Hin | Hin];
              [try discriminate Hin; injection Hin as <- <-;
               (split; [assumption | cbn; tauto]) |]);
      contradiction
    | intros ? ? ? Hin; cbn [In] in Hin;
      repeat (destruct Hin as [Hin | Hin];
              [try discriminate Hin; injection Hin as <- <- <-;
               (split; [cbn; tauto | eexists; cbn; tauto]) |]);
      contradiction
    | intros ? ? ? Hin; cbn [In] in Hin;
      repeat (destruct Hin as [Hin | Hin];
              [try discriminate Hin; injection Hin as <- <- <-;
               (split; [reflexivity | cbn; tauto]) |]);
      contradiction ].
Qed.

Lemma stop_schedules_witness :
  In {| stop_call := TaskQueue_init; stop_result := Returns (VObj 20) |}
    (stopped_since stoppable_world
       (snd (stop scripted_stop (VInt 2) stoppable_world))).
Proof.
  refine (proj1 (proj1 (proj2
            (stop_schedules scripted_stop (VInt 2) stoppable_world _ _ _))
            (VObj 20) (VObj 22) (Returns VNone) _)).
  - apply surjective_pairing.
  - among.
Defined.
